(** * hamilton.plugins.pandas_extensions: a shallow embedding

    The plugin is a catalogue of dataclasses that forward to pandas'
    read/write routines and hand back the framework's file metadata.
    The embedding follows the module top to bottom:

    - Python values, keyword-argument dicts and [sys.version_info];
    - the collaborators (pandas, [hamilton.io.utils], [hamilton.registry])
      as an interface the adapters are written against;
    - one Rocq module per adapter class, holding the dataclass record and
      its methods under their Python names;
    - the module body (import-time registration);
    - the model saver of [hamilton.plugins.mlflow_extensions], which is
      exercised by the test-suite. *)

From stdpp Require Import base strings gmap list pretty.
From Stdlib Require Import ZArith.

Local Open Scope string_scope.
Local Open Scope Z_scope.

#[local] Set Warnings "-register-all".

(** ** Python values *)

(** Dataclasses do not enforce their annotations, so every field holds an
    arbitrary object; the methods only ever test fields against the
    singletons [None] and [False]. *)
Inductive pyval : Type :=
  | VNone
  | VBool (b : bool)
  | VInt (z : Z)
  | VStr (s : string)
  | VList (l : list pyval)
  | VDict (d : list (string * pyval))
  | VObj (id : N).   (* opaque object: callable, buffer, dtype, ... *)

(** [x is not None] *)
Definition is_not_None (v : pyval) : bool :=
  match v with VNone => false | _ => true end.

(** [x is not False] *)
Definition is_not_False (v : pyval) : bool :=
  match v with VBool false => false | _ => true end.

(** A keyword-argument dict: [kwargs = {}], [kwargs[k] = v]. *)
Abbreviation Kwargs := (gmap string pyval).

(** [if cond: kwargs[key] = value] *)
Definition assign_if (cond : bool) (key : string) (value : pyval) (kwargs : Kwargs)
  : Kwargs :=
  if cond then <[key := value]> kwargs else kwargs.

(** ** [str.startswith] *)
Fixpoint startswith (prefix s : string) : bool :=
  match prefix, s with
  | EmptyString, _ => true
  | String a p, String b t => if Ascii.eqb a b then startswith p t else false
  | String _ _, EmptyString => false
  end.
Arguments startswith : simpl never.

(** ** [sys.version_info] and tuple comparison *)

Record version_info_t := VersionInfo { major : Z; minor : Z; micro : Z }.

(** The integer prefix of the [sys.version_info] tuple. *)
Definition as_tuple (v : version_info_t) : list Z := [major v; minor v; micro v].

(** Python's lexicographic [<] on tuples of integers: the first differing
    position decides, and a proper prefix is smaller. *)
Fixpoint tuple_lt (a b : list Z) : bool :=
  match a, b with
  | _, [] => false
  | [], _ :: _ => true
  | x :: a', y :: b' =>
      if x <? y then true else if y <? x then false else tuple_lt a' b'
  end.

(** [a >= b] on tuples. *)
Definition tuple_ge (a b : list Z) : bool := negb (tuple_lt a b).

(** ** Types known to the plugin *)

Inductive pytype := PandasDataFrame | PandasSeries.

Definition DATAFRAME_TYPE : pytype := PandasDataFrame.
Definition COLUMN_TYPE : pytype := PandasSeries.

#[global] Instance pytype_eq_dec : EqDecision pytype.
Proof. solve_decision. Defined.

(** ** Data frames *)

(** A frame is its row index and its columns in order; a column is a label
    together with one cell per row. *)
Record DataFrame := mkDataFrame {
  df_index : list pyval;
  df_columns : list (string * list pyval)
}.

(** ** Locations *)

(** [Union[str, Path, BytesIO, BufferedReader]] *)
Inductive file_source :=
  | SrcStr (s : string)
  | SrcPath (s : string)
  | SrcBytesIO (id : N)
  | SrcBufferedReader (id : N).

(** ** Exceptions *)
Inductive exn :=
  | NotImplementedError (msg : string)
  | RuntimeError (msg : string)
  | KeyError (key : string)
  | AttributeError (attr : string)
  | LibraryError (kind : string).   (* raised inside a collaborator *)

(** ** Metadata *)
Abbreviation Metadata := (gmap string pyval).

(** What a location looks like as a metadata value. *)
Definition file_source_val (loc : file_source) : pyval :=
  match loc with
  | SrcStr s => VStr s
  | SrcPath s => VStr s
  | SrcBytesIO id => VObj id
  | SrcBufferedReader id => VObj id
  end.

(** ** Effects *)

(** The pandas entry points the adapters forward to. *)
Inductive pd_reader := read_csv | read_feather | read_parquet | read_pickle | read_json.
Inductive pd_writer := to_csv | to_feather | to_parquet | to_pickle | to_json.

(** Every call that leaves the plugin, in the order it is made. *)
Inductive event :=
  | PandasRead (fn : pd_reader) (loc : file_source) (kw : Kwargs)
  | PandasWrite (fn : pd_writer) (data : DataFrame) (loc : file_source) (kw : Kwargs)
  | GetFileMetadata (loc : file_source).

(** The collaborators the module imports: the interpreter's version, pandas
    and [hamilton.io.utils.get_file_metadata].  [World] is whatever they act
    on (files, buffers, the network, the clock). *)
Class Collaborators (World : Type) := {
  version_info : version_info_t;
  pandas_read : pd_reader → file_source → Kwargs → World → exn + DataFrame * World;
  pandas_write : pd_writer → DataFrame → file_source → Kwargs → World → exn + World;
  get_file_metadata : file_source → World → exn + Metadata
}.

Record state (World : Type) := mkState {
  world : World;
  calls : list event
}.
Arguments mkState {World} _ _.
Arguments world {World} _.
Arguments calls {World} _.

Inductive result (S A : Type) :=
  | Returns (a : A) (s : S)
  | Raises (e : exn) (s : S).
Arguments Returns {S A} _ _.
Arguments Raises {S A} _ _.

(** A method body: it runs from a state and either returns or raises. *)
Definition M (World A : Type) : Type := state World → result (state World) A.

Definition final_state {S A} (r : result S A) : S :=
  match r with Returns _ s => s | Raises _ s => s end.

#[global] Instance M_ret {World} : MRet (M World) := λ A a s, Returns a s.
#[global] Instance M_bind {World} : MBind (M World) := λ A B f m s,
  match m s with
  | Returns a s' => f a s'
  | Raises e s' => Raises e s'
  end.

Definition raise {World A} (e : exn) : M World A := λ s, Raises e s.

Section Calls.
Context {World : Type} `{!Collaborators World}.

Definition record (ev : event) (s : state World) : state World :=
    mkState (world s) (calls s ++ [ev])%list.

  (** [pd.read_xxx(loc, **kw)] *)
Definition pd_read (fn : pd_reader) (loc : file_source) (kw : Kwargs)
    : M World DataFrame := λ s,
    let s := record (PandasRead fn loc kw) s in
    match pandas_read fn loc kw (world s) with
    | inl e => Raises e s
    | inr (df, w) => Returns df (mkState w (calls s))
    end.

  (** [data.to_xxx(loc, **kw)] *)
Definition pd_write (fn : pd_writer) (data : DataFrame) (loc : file_source)
      (kw : Kwargs) : M World unit := λ s,
    let s := record (PandasWrite fn data loc kw) s in
    match pandas_write fn data loc kw (world s) with
    | inl e => Raises e s
    | inr w => Returns () (mkState w (calls s))
    end.

  (** [utils.get_file_metadata(loc)] *)
Definition utils_get_file_metadata (loc : file_source) : M World Metadata := λ s,
    let s := record (GetFileMetadata loc) s in
    match get_file_metadata loc (world s) with
    | inl e => Raises e s
    | inr md => Returns md s
    end.
End Calls.

(** The keyword arguments the pandas calls of a trace were given. *)
Definition passed_kwargs (tr : list event) : list Kwargs :=
  omap (λ ev, match ev with
              | PandasRead _ _ kw => Some kw
              | PandasWrite _ _ _ kw => Some kw
              | GetFileMetadata _ => None
              end) tr.

(** ** Adapter classes *)

(** The two capability base classes of [hamilton.io.data_adapters]. *)
Inductive base_class := DataLoader | DataSaver.

#[global] Instance base_class_eq_dec : EqDecision base_class.
Proof. solve_decision. Defined.

(** [class DataFrameDataLoader(DataLoader, DataSaver, abc.ABC)] *)
Module DataFrameDataLoader.
Definition bases : list base_class := [DataLoader; DataSaver].
Definition applicable_types : list pytype := [DATAFRAME_TYPE].
End DataFrameDataLoader.

(** [class CSVDataAdapter(DataFrameDataLoader)] *)
Module CSVDataAdapter.
Record t := new_ { path : string; sep : pyval }.

  (** [CSVDataAdapter(path)]: [sep: str = None]. *)
Definition new (path : string) : t := new_ path VNone.

Definition optional_fields (self : t) : list (string * pyval) :=
    [("sep", sep self)].

Definition bases := DataFrameDataLoader.bases.
Definition applicable_types := DataFrameDataLoader.applicable_types.
Definition name : string := "csv".

Definition _get_loading_kwargs (self : t) : Kwargs :=
    let kwargs : Kwargs := ∅ in
    let kwargs := assign_if (is_not_None (sep self)) "sep" (sep self) kwargs in
    kwargs.

Definition _get_saving_kwargs (self : t) : Kwargs :=
    let kwargs : Kwargs := {["index" := VBool false]} in
    let kwargs := assign_if (is_not_None (sep self)) "sep" (sep self) kwargs in
    kwargs.

Section Methods.
Context {World : Type} `{!Collaborators World}.

Definition save_data (self : t) (data : DataFrame) : M World Metadata :=
      pd_write to_csv data (SrcStr (path self)) (_get_saving_kwargs self) ;;
      utils_get_file_metadata (SrcStr (path self)).

Definition load_data (self : t) (type_ : pytype) : M World (DataFrame * Metadata) :=
      df ← pd_read read_csv (SrcStr (path self)) (_get_loading_kwargs self) ;
      metadata ←
        (if startswith "https://" (path self)
         then mret ({["path" := VStr (path self)]} : Metadata)
         else utils_get_file_metadata (SrcStr (path self))) ;
      mret (df, metadata).
End Methods.
End CSVDataAdapter.

(** [class FeatherDataLoader(DataFrameDataLoader)] *)
Module FeatherDataLoader.
Record t := new { path : string }.

Definition optional_fields (self : t) : list (string * pyval) := [].

Definition bases := DataFrameDataLoader.bases.
Definition applicable_types := DataFrameDataLoader.applicable_types.
Definition name : string := "feather".

Section Methods.
Context {World : Type} `{!Collaborators World}.

Definition save_data (self : t) (data : DataFrame) : M World Metadata :=
  pd_write to_feather data (SrcStr (path self)) ∅ ;;
  utils_get_file_metadata (SrcStr (path self)).

Definition load_data (self : t) (type_ : pytype) : M World (DataFrame * Metadata) :=
  df ← pd_read read_feather (SrcStr (path self)) ∅ ;
  metadata ← utils_get_file_metadata (SrcStr (path self)) ;
  mret (df, metadata).
End Methods.
End FeatherDataLoader.

(** [class ParquetDataLoader(DataFrameDataLoader)] *)
Module ParquetDataLoader.
Record t := new { path : string }.

Definition optional_fields (self : t) : list (string * pyval) := [].

Definition bases := DataFrameDataLoader.bases.
Definition applicable_types := DataFrameDataLoader.applicable_types.
Definition name : string := "parquet".

Section Methods.
Context {World : Type} `{!Collaborators World}.

Definition load_data (self : t) (type_ : pytype) : M World (DataFrame * Metadata) :=
  df ← pd_read read_parquet (SrcStr (path self)) ∅ ;
  metadata ← utils_get_file_metadata (SrcStr (path self)) ;
  mret (df, metadata).

Definition save_data (self : t) (data : DataFrame) : M World Metadata :=
  pd_write to_parquet data (SrcStr (path self)) ∅ ;;
  utils_get_file_metadata (SrcStr (path self)).
End Methods.
End ParquetDataLoader.

(** [class PandasPickleReader(DataLoader)] *)
Module PandasPickleReader.
Record t := new_ {
  filepath_or_buffer : file_source;
  compression : pyval;
  storage_options : pyval
}.

(** [PandasPickleReader(filepath_or_buffer)] *)
Definition new (filepath_or_buffer : file_source) : t :=
  new_ filepath_or_buffer (VStr "infer") VNone.

Definition optional_fields (self : t) : list (string * pyval) :=
  [("compression", compression self); ("storage_options", storage_options self)].

Definition bases : list base_class := [DataLoader].
Definition applicable_types : list pytype := [DATAFRAME_TYPE].
Definition name : string := "pickle".

Definition _get_loading_kwargs (self : t) : Kwargs :=
  let kwargs : Kwargs := ∅ in
  let kwargs := assign_if (is_not_None (compression self)) "compression" (compression self) kwargs in
  let kwargs := assign_if (is_not_None (storage_options self)) "storage_options" (storage_options self) kwargs in
  kwargs.

Section Methods.
Context {World : Type} `{!Collaborators World}.

Definition load_data (self : t) (type_ : pytype) : M World (DataFrame * Metadata) :=
  df ← pd_read read_pickle (filepath_or_buffer self) (_get_loading_kwargs self) ;
  metadata ← utils_get_file_metadata (filepath_or_buffer self) ;
  mret (df, metadata).
End Methods.
End PandasPickleReader.

(** [if sys.version_info < (3, 8): pickle_protocol_default = 4 else: ... = 5] *)
Definition pickle_protocol_default (v : version_info_t) : Z :=
  if tuple_lt (as_tuple v) [3; 8] then 4 else 5.

(** [class PandasPickleWriter(DataSaver)] *)
Module PandasPickleWriter.
Record t := new_ {
  path : file_source;
  compression : pyval;
  protocol : pyval;
  storage_options : pyval
}.

Section Constructor.
Context {World : Type} `{!Collaborators World}.

(** [PandasPickleWriter(path)]: [protocol: int = pickle_protocol_default]. *)
Definition new (path : file_source) : t :=
  new_ path (VStr "infer") (VInt (pickle_protocol_default version_info)) VNone.
End Constructor.

Definition optional_fields (self : t) : list (string * pyval) :=
  [("compression", compression self); ("protocol", protocol self);
   ("storage_options", storage_options self)].

Definition bases : list base_class := [DataSaver].
Definition applicable_types : list pytype := [DATAFRAME_TYPE].
Definition name : string := "pickle".

Definition _get_saving_kwargs (self : t) : Kwargs :=
  let kwargs : Kwargs := ∅ in
  let kwargs := assign_if (is_not_None (compression self)) "compression" (compression self) kwargs in
  let kwargs := assign_if (is_not_None (protocol self)) "protocol" (protocol self) kwargs in
  let kwargs := assign_if (is_not_None (storage_options self)) "storage_options" (storage_options self) kwargs in
  kwargs.

Section Methods.
Context {World : Type} `{!Collaborators World}.

Definition save_data (self : t) (data : DataFrame) : M World Metadata :=
  pd_write to_pickle data (path self) (_get_saving_kwargs self) ;;
  utils_get_file_metadata (path self).
End Methods.
End PandasPickleWriter.

(** [class PandasJsonReader(DataLoader)] *)
Module PandasJsonReader.
Record t := new_ {
  filepath_or_buffer : file_source;
  chunksize : pyval;
  compression : pyval;
  convert_axes : pyval;
  convert_dates : pyval;
  date_unit : pyval;
  dtype : pyval;
  dtype_backend : pyval;
  encoding : pyval;
  encoding_errors : pyval;
  engine : pyval;
  keep_default_dates : pyval;
  lines : pyval;
  nrows : pyval;
  orient : pyval;
  precise_float : pyval;
  storage_options : pyval;
  typ : pyval
}.

(** [PandasJsonReader(filepath_or_buffer)], every keyword at its declared
    default, in field order. *)
Definition new (filepath_or_buffer : file_source) : t :=
  new_ filepath_or_buffer
    VNone
    (VStr "infer")
    VNone
    (VBool true)
    VNone
    VNone
    VNone
    VNone
    (VStr "strict")
    (VStr "ujson")
    (VBool true)
    (VBool false)
    VNone
    VNone
    (VBool false)
    VNone
    (VStr "frame").

Definition optional_fields (self : t) : list (string * pyval) :=
  [("chunksize", chunksize self); ("compression", compression self);
   ("convert_axes", convert_axes self); ("convert_dates", convert_dates self);
   ("date_unit", date_unit self); ("dtype", dtype self);
   ("dtype_backend", dtype_backend self); ("encoding", encoding self);
   ("encoding_errors", encoding_errors self); ("engine", engine self);
   ("keep_default_dates", keep_default_dates self); ("lines", lines self);
   ("nrows", nrows self); ("orient", orient self);
   ("precise_float", precise_float self); ("storage_options", storage_options self);
   ("typ", typ self)].

Definition bases : list base_class := [DataLoader].
Definition applicable_types : list pytype := [DATAFRAME_TYPE].
Definition name : string := "json".

Section Methods.
Context {World : Type} `{!Collaborators World}.

Definition _get_loading_kwargs (self : t) : Kwargs :=
  let kwargs : Kwargs := ∅ in
  let kwargs := assign_if (is_not_None (chunksize self)) "chunksize" (chunksize self) kwargs in
  let kwargs := assign_if (is_not_None (compression self)) "compression" (compression self) kwargs in
  let kwargs := assign_if (is_not_None (convert_axes self)) "convert_axes" (convert_axes self) kwargs in
  let kwargs := assign_if (is_not_None (convert_dates self)) "convert_dates" (convert_dates self) kwargs in
  let kwargs := assign_if (is_not_None (date_unit self)) "date_unit" (date_unit self) kwargs in
  let kwargs := assign_if (is_not_None (dtype self)) "dtype" (dtype self) kwargs in
  let kwargs := assign_if (is_not_None (dtype_backend self)) "dtype_backend" (dtype_backend self) kwargs in
  let kwargs := assign_if (is_not_None (encoding self)) "encoding" (encoding self) kwargs in
  let kwargs := assign_if (is_not_None (encoding_errors self)) "encoding_errors" (encoding_errors self) kwargs in
  let kwargs := assign_if ((tuple_ge (as_tuple version_info) [3; 8] && is_not_None (engine self))) "engine" (engine self) kwargs in
  let kwargs := assign_if (is_not_None (keep_default_dates self)) "keep_default_dates" (keep_default_dates self) kwargs in
  let kwargs := assign_if (is_not_None (lines self)) "lines" (lines self) kwargs in
  let kwargs := assign_if (is_not_None (nrows self)) "nrows" (nrows self) kwargs in
  let kwargs := assign_if (is_not_None (orient self)) "orient" (orient self) kwargs in
  let kwargs := assign_if (is_not_None (precise_float self)) "precise_float" (precise_float self) kwargs in
  let kwargs := assign_if (is_not_None (storage_options self)) "storage_options" (storage_options self) kwargs in
  let kwargs := assign_if (is_not_None (typ self)) "typ" (typ self) kwargs in
  kwargs.

Definition load_data (self : t) (type_ : pytype) : M World (DataFrame * Metadata) :=
  df ← pd_read read_json (filepath_or_buffer self) (_get_loading_kwargs self) ;
  metadata ← utils_get_file_metadata (filepath_or_buffer self) ;
  mret (df, metadata).
End Methods.
End PandasJsonReader.

(** [class PandasJsonWriter(DataSaver)] *)
Module PandasJsonWriter.
Record t := new_ {
  filepath_or_buffer : file_source;
  compression : pyval;
  date_format : pyval;
  date_unit : pyval;
  default_handler : pyval;
  double_precision : pyval;
  force_ascii : pyval;
  index : pyval;
  indent : pyval;
  lines : pyval;
  mode : pyval;
  orient : pyval;
  storage_options : pyval
}.

(** [PandasJsonWriter(filepath_or_buffer)], every keyword at its declared
    default, in field order. *)
Definition new (filepath_or_buffer : file_source) : t :=
  new_ filepath_or_buffer
    (VStr "infer")
    (VStr "epoch")
    (VStr "ms")
    VNone
    (VInt 10)
    (VBool true)
    VNone
    (VInt 0)
    (VBool false)
    (VStr "w")
    VNone
    VNone.

Definition optional_fields (self : t) : list (string * pyval) :=
  [("compression", compression self); ("date_format", date_format self);
   ("date_unit", date_unit self); ("default_handler", default_handler self);
   ("double_precision", double_precision self); ("force_ascii", force_ascii self);
   ("index", index self); ("indent", indent self);
   ("lines", lines self); ("mode", mode self);
   ("orient", orient self); ("storage_options", storage_options self)].

Definition bases : list base_class := [DataSaver].
Definition applicable_types : list pytype := [DATAFRAME_TYPE].
Definition name : string := "json".

Section Methods.
Context {World : Type} `{!Collaborators World}.

Definition _get_saving_kwargs (self : t) : Kwargs :=
  let kwargs : Kwargs := ∅ in
  let kwargs := assign_if (is_not_None (compression self)) "compression" (compression self) kwargs in
  let kwargs := assign_if (is_not_None (date_format self)) "date_format" (date_format self) kwargs in
  let kwargs := assign_if (is_not_None (date_unit self)) "date_unit" (date_unit self) kwargs in
  let kwargs := assign_if (is_not_None (default_handler self)) "default_handler" (default_handler self) kwargs in
  let kwargs := assign_if (is_not_None (double_precision self)) "double_precision" (double_precision self) kwargs in
  let kwargs := assign_if (is_not_None (force_ascii self)) "force_ascii" (force_ascii self) kwargs in
  let kwargs := assign_if (is_not_None (index self)) "index" (index self) kwargs in
  let kwargs := assign_if (is_not_None (indent self)) "indent" (indent self) kwargs in
  let kwargs := assign_if (is_not_False (lines self)) "lines" (lines self) kwargs in
  let kwargs := assign_if ((tuple_ge (as_tuple version_info) [3; 8] && is_not_None (mode self))) "mode" (mode self) kwargs in
  let kwargs := assign_if (is_not_None (orient self)) "orient" (orient self) kwargs in
  let kwargs := assign_if (is_not_None (storage_options self)) "storage_options" (storage_options self) kwargs in
  kwargs.

Definition save_data (self : t) (data : DataFrame) : M World Metadata :=
  pd_write to_json data (filepath_or_buffer self) (_get_saving_kwargs self) ;;
  utils_get_file_metadata (filepath_or_buffer self).
End Methods.
End PandasJsonWriter.

(** ** The catalogue *)

(** The seven classes the module defines and registers. *)
Inductive adapter_class :=
  | CSVDataAdapter_cls
  | FeatherDataLoader_cls
  | ParquetDataLoader_cls
  | PandasPickleReader_cls
  | PandasPickleWriter_cls
  | PandasJsonReader_cls
  | PandasJsonWriter_cls.

#[global] Instance adapter_class_eq_dec : EqDecision adapter_class.
Proof. solve_decision. Defined.

(** [cls.name()] *)
Definition name (cls : adapter_class) : string :=
  match cls with
  | CSVDataAdapter_cls => CSVDataAdapter.name
  | FeatherDataLoader_cls => FeatherDataLoader.name
  | ParquetDataLoader_cls => ParquetDataLoader.name
  | PandasPickleReader_cls => PandasPickleReader.name
  | PandasPickleWriter_cls => PandasPickleWriter.name
  | PandasJsonReader_cls => PandasJsonReader.name
  | PandasJsonWriter_cls => PandasJsonWriter.name
  end.

(** [cls.applicable_types()] *)
Definition applicable_types (cls : adapter_class) : list pytype :=
  match cls with
  | CSVDataAdapter_cls => CSVDataAdapter.applicable_types
  | FeatherDataLoader_cls => FeatherDataLoader.applicable_types
  | ParquetDataLoader_cls => ParquetDataLoader.applicable_types
  | PandasPickleReader_cls => PandasPickleReader.applicable_types
  | PandasPickleWriter_cls => PandasPickleWriter.applicable_types
  | PandasJsonReader_cls => PandasJsonReader.applicable_types
  | PandasJsonWriter_cls => PandasJsonWriter.applicable_types
  end.

(** The capability bases a class inherits from. *)
Definition bases (cls : adapter_class) : list base_class :=
  match cls with
  | CSVDataAdapter_cls => CSVDataAdapter.bases
  | FeatherDataLoader_cls => FeatherDataLoader.bases
  | ParquetDataLoader_cls => ParquetDataLoader.bases
  | PandasPickleReader_cls => PandasPickleReader.bases
  | PandasPickleWriter_cls => PandasPickleWriter.bases
  | PandasJsonReader_cls => PandasJsonReader.bases
  | PandasJsonWriter_cls => PandasJsonWriter.bases
  end.

(** [issubclass(cls, base)] *)
Definition issubclass (cls : adapter_class) (base : base_class) : bool :=
  bool_decide (base ∈ bases cls).

(** An instance of one of the seven dataclasses. *)
Inductive adapter :=
  | CSV (self : CSVDataAdapter.t)
  | Feather (self : FeatherDataLoader.t)
  | Parquet (self : ParquetDataLoader.t)
  | PickleReader (self : PandasPickleReader.t)
  | PickleWriter (self : PandasPickleWriter.t)
  | JsonReader (self : PandasJsonReader.t)
  | JsonWriter (self : PandasJsonWriter.t).

(** [type(self)] *)
Definition class_of (a : adapter) : adapter_class :=
  match a with
  | CSV _ => CSVDataAdapter_cls
  | Feather _ => FeatherDataLoader_cls
  | Parquet _ => ParquetDataLoader_cls
  | PickleReader _ => PandasPickleReader_cls
  | PickleWriter _ => PandasPickleWriter_cls
  | JsonReader _ => PandasJsonReader_cls
  | JsonWriter _ => PandasJsonWriter_cls
  end.

(** The location an instance was configured with. *)
Definition location (a : adapter) : file_source :=
  match a with
  | CSV self => SrcStr (CSVDataAdapter.path self)
  | Feather self => SrcStr (FeatherDataLoader.path self)
  | Parquet self => SrcStr (ParquetDataLoader.path self)
  | PickleReader self => PandasPickleReader.filepath_or_buffer self
  | PickleWriter self => PandasPickleWriter.path self
  | JsonReader self => PandasJsonReader.filepath_or_buffer self
  | JsonWriter self => PandasJsonWriter.filepath_or_buffer self
  end.

(** The keyword fields of an instance, by name. *)
Definition optional_fields (a : adapter) : list (string * pyval) :=
  match a with
  | CSV self => CSVDataAdapter.optional_fields self
  | Feather self => FeatherDataLoader.optional_fields self
  | Parquet self => ParquetDataLoader.optional_fields self
  | PickleReader self => PandasPickleReader.optional_fields self
  | PickleWriter self => PandasPickleWriter.optional_fields self
  | JsonReader self => PandasJsonReader.optional_fields self
  | JsonWriter self => PandasJsonWriter.optional_fields self
  end.

Section Dispatch.
Context {World : Type} `{!Collaborators World}.

(** [adapter.save_data(data)]; the reader-only classes define no such
    method. *)
Definition save_data (a : adapter) (data : DataFrame) : M World Metadata :=
  match a with
  | CSV self => CSVDataAdapter.save_data self data
  | Feather self => FeatherDataLoader.save_data self data
  | Parquet self => ParquetDataLoader.save_data self data
  | PickleWriter self => PandasPickleWriter.save_data self data
  | JsonWriter self => PandasJsonWriter.save_data self data
  | PickleReader _ | JsonReader _ => raise (AttributeError "save_data")
  end.

(** [adapter.load_data(type_)]; the writer-only classes define no such
    method. *)
Definition load_data (a : adapter) (type_ : pytype) : M World (DataFrame * Metadata) :=
  match a with
  | CSV self => CSVDataAdapter.load_data self type_
  | Feather self => FeatherDataLoader.load_data self type_
  | Parquet self => ParquetDataLoader.load_data self type_
  | PickleReader self => PandasPickleReader.load_data self type_
  | JsonReader self => PandasJsonReader.load_data self type_
  | PickleWriter _ | JsonWriter _ => raise (AttributeError "load_data")
  end.

(** Running a method from a world with an empty call log. *)
Definition run {A} (m : M World A) (w : World) : result (state World) A :=
  m (mkState w []).
End Dispatch.

(** ** Single-dispatch helpers on frames *)

(** Python passes frames by reference: the heap maps object identities to
    the frames they denote, and a function that assigns into a frame
    updates the heap at that identity. *)
Abbreviation ref := positive.
Abbreviation heap := (gmap positive DataFrame).

(** The values pandas broadcasts over the rows when they are assigned to a
    column.  Containers and opaque objects (arrays, Series, ...) are not
    among them. *)
Definition is_scalar (v : pyval) : bool :=
  match v with
  | VNone | VBool _ | VInt _ | VStr _ => true
  | VList _ | VDict _ | VObj _ => false
  end.

(** What [df[column_name] = value] does when [value] is not a scalar: pandas
    aligns the value with the rows, or raises ([ValueError] on a length
    mismatch).  That part of pandas is taken as given. *)
Class FrameAssignment :=
  setitem_non_scalar : string → pyval → DataFrame → exn + DataFrame.

(** What [df[column_name]] evaluates to. *)
Inductive selection :=
  | Column (cells : list pyval)    (* a Series: the label occurs once *)
  | Columns (sub : DataFrame).     (* a DataFrame: the label is duplicated *)

(** [df[column_name]] *)
Definition getitem (df : DataFrame) (column_name : string) : exn + selection :=
  match filter (λ c, c.1 = column_name) (df_columns df) with
  | [] => inl (KeyError column_name)
  | [c] => inr (Column c.2)
  | cs => inr (Columns (mkDataFrame (df_index df) cs))
  end.

(** One column under an assignment to the label [column_name]. *)
Definition overwrite (column_name : string) (cells : list pyval)
    (c : string * list pyval) : string * list pyval :=
  if bool_decide (c.1 = column_name) then (c.1, cells) else c.

(** Storing [cells] under [column_name]: a column already carrying the
    label is overwritten where it stands, otherwise the column is appended
    at the end. *)
Definition set_column (column_name : string) (cells : list pyval) (df : DataFrame)
  : DataFrame :=
  if bool_decide (column_name ∈ (df_columns df).*1)
  then mkDataFrame (df_index df) (overwrite column_name cells <$> df_columns df)
  else mkDataFrame (df_index df) (df_columns df ++ [(column_name, cells)])%list.

(** [df[column_name] = value]: a scalar is broadcast over the rows. *)
Definition setitem `{!FrameAssignment} (column_name : string) (value : pyval)
    (df : DataFrame) : exn + DataFrame :=
  if is_scalar value
  then inr (set_column column_name (replicate (length (df_index df)) value) df)
  else setitem_non_scalar column_name value df.

(** [get_column_pandas(df, column_name)] *)
Definition get_column_pandas (df : ref) (column_name : string) (h : heap)
  : option (exn + selection) :=
  d ← h !! df ; Some (getitem d column_name).

(** [fill_with_scalar_pandas(df, column_name, value)]: assigns into the
    frame [df] points to and returns [df]. *)
Definition fill_with_scalar_pandas `{!FrameAssignment} (df : ref)
    (column_name : string) (value : pyval) (h : heap) : option (result heap ref) :=
  d ← h !! df ;
  Some (match setitem column_name value d with
        | inr d' => Returns df (<[df := d']> h)
        | inl e => Raises e h
        end).

(** ** Import-time registration *)

(** Calls into [hamilton.registry], as the framework receives them. *)
Inductive registry_call :=
  | GetColumnRegister (ty : pytype)
  | FillWithScalarRegister (ty : pytype)
  | RegisterTypes (extension : string) (dataframe_type column_type : pytype)
  | RegisterAdapter (cls : adapter_class).

#[global] Instance registry_call_eq_dec : EqDecision registry_call.
Proof. solve_decision. Defined.

Abbreviation registry_log := (list registry_call).

(** [registry.register_types(...)] and [registry.register_adapter(...)] *)
Definition registry_register_types (extension : string) (df_t col_t : pytype)
    (log : registry_log) : registry_log :=
  (log ++ [RegisterTypes extension df_t col_t])%list.

Definition registry_register_adapter (cls : adapter_class) (log : registry_log)
  : registry_log :=
  (log ++ [RegisterAdapter cls])%list.

(** [def register_types()] *)
Definition register_types (log : registry_log) : registry_log :=
  registry_register_types "pandas" DATAFRAME_TYPE COLUMN_TYPE log.

(** [def register_data_loaders()]: the [for loader in [...]] loop. *)
Definition register_data_loaders (log : registry_log) : registry_log :=
  foldl (λ log loader, registry_register_adapter loader log) log
    [CSVDataAdapter_cls; FeatherDataLoader_cls; ParquetDataLoader_cls;
     PandasPickleReader_cls; PandasPickleWriter_cls;
     PandasJsonReader_cls; PandasJsonWriter_cls].

(** The module body, statement by statement.  [pandas_installed] decides
    the [try: import pandas] at the top. *)
Definition import_module (pandas_installed : bool) (log : registry_log)
  : exn + registry_log :=
  if negb pandas_installed then inl (NotImplementedError "Pandas is not installed.")
  else
    let log := (log ++ [GetColumnRegister PandasDataFrame])%list in
    let log := (log ++ [FillWithScalarRegister PandasDataFrame])%list in
    let log := register_types log in
    let log := register_data_loaders log in
    inr log.

(** The adapter classes a log saw registered, in order. *)
Definition registered_adapters (log : registry_log) : list adapter_class :=
  omap (λ c, match c with RegisterAdapter cls => Some cls | _ => None end) log.

(** The [register_types] calls of a log. *)
Definition registered_types (log : registry_log) : list (string * pytype * pytype) :=
  omap (λ c, match c with RegisterTypes n d s => Some (n, d, s) | _ => None end) log.

(** ** The model saver *)

(** The tracking collaborator as the test-suite drives it: runs are opened
    and closed, at most one is active, and model artifacts are logged under
    a run. *)
Module mlflow.
Record tracking := mkTracking {
  next_run : N;                          (* supply of fresh run ids *)
  runs : list string;                    (* every run ever started *)
  active : option string;                (* [mlflow.active_run()] *)
  artifacts : list (string * string * N) (* run id, artifact path, model *)
}.

(** A store just pointed at by [mlflow.set_tracking_uri(tmp_path)]. *)
Definition empty : tracking := mkTracking 0 [] None [].

(** [mlflow.start_run()] *)
Definition start_run (st : tracking) : result tracking string :=
  match active st with
  | Some _ => Raises (LibraryError "Exception") st
  | None =>
      let run_id := "run-" +:+ pretty (next_run st) in
      Returns run_id
        (mkTracking (N.succ (next_run st)) (runs st ++ [run_id])%list (Some run_id)
           (artifacts st))
  end.

(** [mlflow.start_run(run_id=...)]: resume an existing run. *)
Definition resume_run (run_id : string) (st : tracking) : result tracking string :=
  match active st with
  | Some _ => Raises (LibraryError "Exception") st
  | None =>
      if bool_decide (run_id ∈ runs st)
      then Returns run_id (mkTracking (next_run st) (runs st) (Some run_id) (artifacts st))
      else Raises (LibraryError "MlflowException") st
  end.

(** [mlflow.end_run()] *)
Definition end_run (st : tracking) : tracking :=
  mkTracking (next_run st) (runs st) None (artifacts st).

(** [mlflow.active_run()] *)
Definition active_run (st : tracking) : option string := active st.

(** [mlflow.<flavor>.log_model(model, path)] under the active run. *)
Definition log_model (model : N) (path : string) (st : tracking)
  : result tracking string :=
  match active st with
  | Some run_id =>
      Returns ("runs:/" +:+ run_id +:+ "/" +:+ path)
        (mkTracking (next_run st) (runs st) (active st)
           (artifacts st ++ [(run_id, path, model)])%list)
  | None => Raises (LibraryError "MlflowException") st
  end.

(** The artifacts logged under a run. *)
Definition artifacts_of (run_id : string) (st : tracking) : list (string * string * N) :=
  filter (λ a, a.1.1 = run_id) (artifacts st).
End mlflow.

Module MLFlowModelSaver.
Record t := new_ {
  path : string;
  flavor : option string;
  run_id : option string;
  register_as : option string;
  kwargs : Kwargs
}.

(** [MLFlowModelSaver(flavor=..., run_id=...)] as the tests build it. *)
Definition new (flavor : option string) (run_id : option string) : t :=
  new_ "model" flavor run_id None ∅.

(** Modelled from the spec: [MLFlowModelSaver.save_data] is defined in
    [hamilton/plugins/mlflow_extensions.py], of which only the tests are
    at hand.  Following the catalogue entry for the model saver and the
    error-handling section: a caller-supplied run id that differs from the
    active tracking run is a conflict, reported before anything is logged;
    otherwise the model is logged under the active run, or under the
    caller's run, or under a fresh one, and the metadata carries the
    model's URI (and the registration name when one was asked for). *)
Definition save_data (self : t) (data : N) (st : mlflow.tracking)
  : result mlflow.tracking Metadata :=
  let conflict :=
    match mlflow.active_run st, run_id self with
    | Some active_id, Some wanted => bool_decide (active_id ≠ wanted)
    | _, _ => false
    end in
  if conflict then
    Raises (RuntimeError "run_id differs from the active run") st
  else
    let extras (uri : string) : Metadata :=
      let md : Metadata := {["model_uri" := VStr uri]} in
      match register_as self with
      | Some n => <["registered_model" := VStr n]> md
      | None => md
      end in
    match mlflow.active_run st with
    | Some _ =>
        match mlflow.log_model data (path self) st with
        | Returns uri st => Returns (extras uri) st
        | Raises e st => Raises e st
        end
    | None =>
        let started :=
          match run_id self with
          | Some wanted => mlflow.resume_run wanted st
          | None => mlflow.start_run st
          end in
        match started with
        | Raises e st => Raises e st
        | Returns _ st =>
            match mlflow.log_model data (path self) st with
            | Returns uri st => Returns (extras uri) (mlflow.end_run st)
            | Raises e st => Raises e (mlflow.end_run st)
            end
        end
    end.
End MLFlowModelSaver.

(** [with pytest.raises(RuntimeError): ...] *)
Definition pytest_raises_RuntimeError {S A} (r : result S A) : bool :=
  match r with
  | Raises (RuntimeError _) _ => true
  | _ => false
  end.

(** [test_mlflow_log_model_active_and_specific_run_ids_are_unequal]: the
    outcome of the [save_data] call under [pytest.raises], together with the
    store right before it. *)
Definition test_mlflow_log_model_active_and_specific_run_ids_are_unequal
    (fitted_sklearn_model : N)
  : option (mlflow.tracking * result mlflow.tracking Metadata) :=
  let st := mlflow.empty in
  match mlflow.start_run st with
  | Raises _ _ => None
  | Returns _ st =>
      match mlflow.active_run st with
      | None => None
      | Some run_id =>
          let st := mlflow.end_run st in
          let saver := MLFlowModelSaver.new (Some "sklearn") (Some run_id) in
          match mlflow.start_run st with
          | Raises _ _ => None
          | Returns _ st =>
              Some (st, MLFlowModelSaver.save_data saver fitted_sklearn_model st)
          end
      end
  end.

(** ** The metadata extractor *)

(** Modelled from the spec: [hamilton.io.utils.get_file_metadata] is
    imported by the plugin but defined elsewhere in the framework.  Following
    the component description of the metadata extractor: for a location it
    can stat it reports the size and the path; for one it cannot (a remote
    URI scheme such as [https://]) it degrades to the location alone and
    does not fail.  [stat] is the file system's answer. *)
Definition spec_get_file_metadata {World : Type}
    (stat : file_source → World → option Z)
    (loc : file_source) (w : World) : exn + Metadata :=
  match stat loc w with
  | Some size => inr (<["size" := VInt size]> {["path" := file_source_val loc]})
  | None => inr {["path" := file_source_val loc]}
  end.

(** Collaborators whose metadata extractor is the one above. *)
Definition spec_collaborators {World : Type} (v : version_info_t)
    (rd : pd_reader → file_source → Kwargs → World → exn + DataFrame * World)
    (wr : pd_writer → DataFrame → file_source → Kwargs → World → exn + World)
    (stat : file_source → World → option Z) : Collaborators World :=
  {| version_info := v;
     pandas_read := rd;
     pandas_write := wr;
     get_file_metadata := spec_get_file_metadata stat |}.

(** ** An in-memory stand-in for the collaborators *)

(** Used to run the adapters on concrete inputs: files live in a map from
    path to frame, buffers are not backed by anything, and nothing under
    [https://] can be stat'ed. *)
Module InMemory.
Abbreviation files := (gmap string DataFrame).

Definition path_of (loc : file_source) : option string :=
  match loc with
  | SrcStr p | SrcPath p => Some p
  | SrcBytesIO _ | SrcBufferedReader _ => None
  end.

Definition read (fn : pd_reader) (loc : file_source) (kw : Kwargs) (w : files)
  : exn + DataFrame * files :=
  match path_of loc ≫= λ p, w !! p with
  | Some df => inr (df, w)
  | None => inl (LibraryError "FileNotFoundError")
  end.

Definition write (fn : pd_writer) (data : DataFrame) (loc : file_source)
    (kw : Kwargs) (w : files) : exn + files :=
  match path_of loc with
  | Some p => inr (<[p := data]> w)
  | None => inl (LibraryError "TypeError")
  end.

Definition stat (loc : file_source) (w : files) : option Z :=
  match path_of loc with
  | Some p =>
      if startswith "https://" p then None
      else (λ df, Z.of_nat (length (df_index df))) <$> w !! p
  | None => None
  end.

Definition python_3_11 : version_info_t := VersionInfo 3 11 0.
Definition python_3_7 : version_info_t := VersionInfo 3 7 9.

Definition collaborators (v : version_info_t) : Collaborators files :=
  spec_collaborators v read write stat.

Definition frame : DataFrame :=
  mkDataFrame [VInt 0; VInt 1] [("a", [VInt 1; VInt 2]); ("b", [VStr "x"; VNone])].

(** Assigning a list of the right length stores it cell by cell; anything
    else that is not a scalar is refused. *)
Definition frame_assignment : FrameAssignment := λ column_name value df,
  match value with
  | VList cells =>
      if bool_decide (length cells = length (df_index df))
      then inr (set_column column_name cells df)
      else inl (LibraryError "ValueError")
  | _ => inl (LibraryError "ValueError")
  end.
End InMemory.

(** ** Shapes of a successful call *)

Section Shapes.
Context {World : Type} `{!Collaborators World}.

(** What a successful [save_data] did: one pandas write at the configured
    location, then the metadata extractor there, whose answer is returned. *)
Definition saved_then_extracted (a : adapter) (data : DataFrame) (w : World)
    (md : Metadata) (s : state World) : Prop :=
  ∃ fn kw,
    calls s = [PandasWrite fn data (location a) kw; GetFileMetadata (location a)] ∧
    pandas_write fn data (location a) kw w = inr (world s) ∧
    get_file_metadata (location a) (world s) = inr md.

(** What a successful [load_data] did: one pandas read at the configured
    location, whose frame is returned, then the metadata step, which is the
    extractor, or, for the CSV adapter on an [https://] path, the mapping
    holding the path alone. *)
Definition loaded_then_extracted (a : adapter) (w : World)
    (df : DataFrame) (md : Metadata) (s : state World) : Prop :=
  ∃ fn kw,
    pandas_read fn (location a) kw w = inr (df, world s) ∧
    ((calls s = [PandasRead fn (location a) kw; GetFileMetadata (location a)] ∧
      get_file_metadata (location a) (world s) = inr md)
     ∨
     (∃ self, a = CSV self ∧
        startswith "https://" (CSVDataAdapter.path self) = true ∧
        calls s = [PandasRead fn (location a) kw] ∧
        md = {["path" := VStr (CSVDataAdapter.path self)]})).

End Shapes.

(** Python 3.8 or later, read off [sys.version_info]. *)
Definition is_python_3_8_or_later (v : version_info_t) : bool :=
  (3 <? major v) || ((major v =? 3) && (8 <=? minor v)).

(** The keyword arguments an adapter's [load_data] / [save_data] hands to
    pandas, observed on the call log. *)
Definition load_call_kwargs {World} `{!Collaborators World}
    (a : adapter) (type_ : pytype) (w : World) : list Kwargs :=
  passed_kwargs (calls (final_state (run (load_data a type_) w))).

Definition save_call_kwargs {World} `{!Collaborators World}
    (a : adapter) (data : DataFrame) (w : World) : list Kwargs :=
  passed_kwargs (calls (final_state (run (save_data a data) w))).

(** The Python names of the pandas routines. *)
Definition pd_reader_name (fn : pd_reader) : string :=
  match fn with
  | read_csv => "read_csv"
  | read_feather => "read_feather"
  | read_parquet => "read_parquet"
  | read_pickle => "read_pickle"
  | read_json => "read_json"
  end.

Definition pd_writer_name (fn : pd_writer) : string :=
  match fn with
  | to_csv => "to_csv"
  | to_feather => "to_feather"
  | to_parquet => "to_parquet"
  | to_pickle => "to_pickle"
  | to_json => "to_json"
  end.

(** What a call made during [save_data] may be: the write of the frame at
    the configured location or the extractor there, never a read. *)
Definition save_event_ok (a : adapter) (data : DataFrame) (ev : event) : Prop :=
  match ev with
  | PandasWrite _ d loc _ => d = data ∧ loc = location a
  | GetFileMetadata loc => loc = location a
  | PandasRead _ _ _ => False
  end.

(** What a call made during [load_data] may be: a read at the configured
    location or the extractor there, never a write. *)
Definition load_event_ok (a : adapter) (ev : event) : Prop :=
  match ev with
  | PandasRead _ loc _ => loc = location a
  | GetFileMetadata loc => loc = location a
  | PandasWrite _ _ _ _ => False
  end.

(** An outcome whose call log is preceded by calls made earlier. *)
Definition after_calls {World A} (earlier : list event)
    (r : result (state World) A) : result (state World) A :=
  match r with
  | Returns x s => Returns x (mkState (world s) (earlier ++ calls s)%list)
  | Raises e s => Raises e (mkState (world s) (earlier ++ calls s)%list)
  end.

(** The one path on which a load does not consult the extractor: the CSV
    adapter on a path that starts with [https://]. *)
Definition skips_extractor (a : adapter) : bool :=
  match a with
  | CSV self => startswith "https://" (CSVDataAdapter.path self)
  | _ => false
  end.

(** The two keywords that are only passed on Python 3.8 or later. *)
Definition version_gated (cls : adapter_class) (k : string) : bool :=
  match cls with
  | PandasJsonReader_cls => bool_decide (k = "engine")
  | PandasJsonWriter_cls => bool_decide (k = "mode")
  | _ => false
  end.

(** Whether a field holding [v] makes it into the keyword arguments. *)
Definition field_is_passed {World} `{!Collaborators World}
    (cls : adapter_class) (k : string) (v : pyval) : bool :=
  is_not_None v &&
  (if version_gated cls k then tuple_ge (as_tuple version_info) [3; 8] else true).

(** * Properties *)

Section CallLog.
Context {World : Type} `{!Collaborators World}.

(** A pandas write followed by the metadata extractor: the shape of every
    [save_data]. *)
Lemma write_then_metadata fn data loc kw (w : World) :
  run (pd_write fn data loc kw ;; utils_get_file_metadata loc) w =
  match pandas_write fn data loc kw w with
  | inl e => Raises e (mkState w [PandasWrite fn data loc kw])
  | inr w' =>
      let s := mkState w' [PandasWrite fn data loc kw; GetFileMetadata loc] in
      match get_file_metadata loc w' with
      | inl e => Raises e s
      | inr md => Returns md s
      end
  end.
Proof.
  unfold run, mbind, M_bind, pd_write, utils_get_file_metadata, record; simpl.
  destruct (pandas_write fn data loc kw w) as [e|w']; [done|]; simpl.
  by destruct (get_file_metadata loc w').
Qed.

(** A pandas read followed by the metadata extractor: the shape of every
    [load_data] but the CSV one. *)
Lemma read_then_metadata fn loc kw (w : World) :
  run (df ← pd_read fn loc kw ;
       metadata ← utils_get_file_metadata loc ;
       mret (df, metadata)) w =
  match pandas_read fn loc kw w with
  | inl e => Raises e (mkState w [PandasRead fn loc kw])
  | inr (df, w') =>
      let s := mkState w' [PandasRead fn loc kw; GetFileMetadata loc] in
      match get_file_metadata loc w' with
      | inl e => Raises e s
      | inr md => Returns (df, md) s
      end
  end.
Proof.
  unfold run, mbind, M_bind, mret, M_ret, pd_read, utils_get_file_metadata, record; simpl.
  destruct (pandas_read fn loc kw w) as [e|[df w']]; [done|]; simpl.
  by destruct (get_file_metadata loc w').
Qed.

(** The CSV loader, whose metadata step branches on the scheme. *)
Lemma csv_load_data_run (self : CSVDataAdapter.t) type_ (w : World) :
  run (CSVDataAdapter.load_data self type_) w =
  let loc := SrcStr (CSVDataAdapter.path self) in
  let kw := CSVDataAdapter._get_loading_kwargs self in
  match pandas_read read_csv loc kw w with
  | inl e => Raises e (mkState w [PandasRead read_csv loc kw])
  | inr (df, w') =>
      if startswith "https://" (CSVDataAdapter.path self)
      then Returns (df, {["path" := VStr (CSVDataAdapter.path self)]})
             (mkState w' [PandasRead read_csv loc kw])
      else
        let s := mkState w' [PandasRead read_csv loc kw; GetFileMetadata loc] in
        match get_file_metadata loc w' with
        | inl e => Raises e s
        | inr md => Returns (df, md) s
        end
  end.
Proof.
  unfold CSVDataAdapter.load_data, run, mbind, M_bind, mret, M_ret, pd_read,
    utils_get_file_metadata, record; simpl.
  destruct (pandas_read _ _ _ w) as [e|[df w']]; [done|]; simpl.
  destruct (startswith "https://" (CSVDataAdapter.path self)); [done|]; simpl.
  by destruct (get_file_metadata _ w').
Qed.
End CallLog.

(** ** The one pandas call behind each method *)

Section Outcomes.
Context {World : Type} `{!Collaborators World}.

(** A saver's [save_data] is a pandas write followed by the extractor, both
    at the configured location; the other classes have no such method. *)
Lemma save_data_run (a : adapter) data (w : World) :
  (issubclass (class_of a) DataSaver = true ∧
   ∃ fn kw, pd_writer_name fn = "to_" +:+ name (class_of a) ∧
     run (save_data a data) w =
     run (pd_write fn data (location a) kw ;;
          utils_get_file_metadata (location a)) w) ∨
  (issubclass (class_of a) DataSaver = false ∧
   run (save_data a data) w = Raises (AttributeError "save_data") (mkState w [])).
Proof.
  destruct a as [self|self|self|self|self|self|self];
    first [ right; split; reflexivity
          | left; split; [reflexivity|]; eexists _, _;
            split; [|reflexivity]; reflexivity ].
Qed.

Lemma load_data_run (a : adapter) type_ (w : World) :
  (issubclass (class_of a) DataLoader = true ∧
   ∃ fn kw, pd_reader_name fn = "read_" +:+ name (class_of a) ∧
     ((run (load_data a type_) w =
       run (df ← pd_read fn (location a) kw ;
            metadata ← utils_get_file_metadata (location a) ;
            mret (df, metadata)) w) ∨
      (∃ self, a = CSV self ∧
         startswith "https://" (CSVDataAdapter.path self) = true ∧
         run (load_data a type_) w =
         match pandas_read fn (location a) kw w with
         | inl e => Raises e (mkState w [PandasRead fn (location a) kw])
         | inr (df, w') =>
             Returns (df, {["path" := VStr (CSVDataAdapter.path self)]})
               (mkState w' [PandasRead fn (location a) kw])
         end))) ∨
  (issubclass (class_of a) DataLoader = false ∧
   run (load_data a type_) w = Raises (AttributeError "load_data") (mkState w [])).
Proof.
  destruct a as [self|self|self|self|self|self|self];
    try first [ right; split; reflexivity
              | left; split; [reflexivity|]; eexists _, _;
                split; [|left; reflexivity]; reflexivity ].
  left. split; [done|]. exists read_csv, (CSVDataAdapter._get_loading_kwargs self).
  split; [done|].
  destruct (startswith "https://" (CSVDataAdapter.path self)) eqn:Hs.
  - right. exists self. split; [done|]. split; [done|].
    simpl. rewrite csv_load_data_run; simpl.
    destruct (pandas_read read_csv _ _ w) as [e|[df w']]; [done|]. by rewrite Hs.
  - left. simpl. rewrite csv_load_data_run, read_then_metadata; simpl.
    destruct (pandas_read read_csv _ _ w) as [e|[df w']]; [done|]. by rewrite Hs.
Qed.
End Outcomes.

(** ** CSV: the index is never written *)

Lemma csv_saving_kwargs_index (self : CSVDataAdapter.t) :
  CSVDataAdapter._get_saving_kwargs self !! "index" = Some (VBool false).
Proof.
  unfold CSVDataAdapter._get_saving_kwargs, assign_if.
  destruct (is_not_None (CSVDataAdapter.sep self)).
  - rewrite lookup_insert_ne by done. apply lookup_singleton_eq.
  - apply lookup_singleton_eq.
Qed.

(** C2. For every frame and every [CSVDataAdapter] instance (any path, any
    separator), [save_data] makes exactly one pandas call, [to_csv] on the
    configured path, and the keyword arguments of that call hold
    [index=False]: the row index is never written. *)
Theorem csv_save_data_never_writes_index {World : Type} `{!Collaborators World}
    (self : CSVDataAdapter.t) (data : DataFrame) (w : World) :
  let kw := CSVDataAdapter._get_saving_kwargs self in
  head (calls (final_state (run (save_data (CSV self) data) w)))
    = Some (PandasWrite to_csv data (SrcStr (CSVDataAdapter.path self)) kw) ∧
  save_call_kwargs (CSV self) data w = [kw] ∧
  Forall (λ kw, kw !! "index" = Some (VBool false))
    (save_call_kwargs (CSV self) data w).
Proof.
  intros kw.
  assert (Hlog : save_call_kwargs (CSV self) data w = [kw]
          ∧ head (calls (final_state (run (save_data (CSV self) data) w)))
            = Some (PandasWrite to_csv data (SrcStr (CSVDataAdapter.path self)) kw)).
  { unfold save_call_kwargs, save_data, CSVDataAdapter.save_data.
    rewrite write_then_metadata. fold kw.
    destruct (pandas_write to_csv data _ kw w) as [e|w']; [done|]; simpl.
    by destruct (get_file_metadata _ w'). }
  destruct Hlog as [Hkw Hhd]. split; [done|]. split; [done|].
  rewrite Hkw. constructor; [|constructor]. apply csv_saving_kwargs_index.
Qed.

(** ** Save and load: pandas first, metadata last *)

Section SaveLoad.
Context {World : Type} `{!Collaborators World}.

Lemma write_then_metadata_returns fn data loc kw (w : World) md s :
  run (pd_write fn data loc kw ;; utils_get_file_metadata loc) w = Returns md s →
  calls s = [PandasWrite fn data loc kw; GetFileMetadata loc] ∧
  pandas_write fn data loc kw w = inr (world s) ∧
  get_file_metadata loc (world s) = inr md.
Proof.
  rewrite write_then_metadata.
  destruct (pandas_write fn data loc kw w) as [e|w'] eqn:Hw; [done|]; simpl.
  destruct (get_file_metadata loc w') as [e|md'] eqn:Hmd; [done|].
  intros [= <- <-]; simpl. by rewrite Hmd.
Qed.

Lemma read_then_metadata_returns fn loc kw (w : World) df md s :
  run (df ← pd_read fn loc kw ;
       metadata ← utils_get_file_metadata loc ;
       mret (df, metadata)) w = Returns (df, md) s →
  pandas_read fn loc kw w = inr (df, world s) ∧
  calls s = [PandasRead fn loc kw; GetFileMetadata loc] ∧
  get_file_metadata loc (world s) = inr md.
Proof.
  rewrite read_then_metadata.
  destruct (pandas_read fn loc kw w) as [e|[df' w']] eqn:Hr; [done|]; simpl.
  destruct (get_file_metadata loc w') as [e|md'] eqn:Hmd; [done|].
  intros [= <- <- <-]; simpl. by rewrite Hmd.
Qed.

Lemma save_data_returns (a : adapter) data (w : World) md s :
  run (save_data a data) w = Returns md s → saved_then_extracted a data w md s.
Proof.
  unfold saved_then_extracted.
  destruct a as [self|self|self|self|self|self|self]; simpl;
    try (intros H; apply write_then_metadata_returns in H; by eauto);
    by intros.
Qed.

Lemma load_data_returns (a : adapter) type_ (w : World) df md s :
  run (load_data a type_) w = Returns (df, md) s → loaded_then_extracted a w df md s.
Proof.
  unfold loaded_then_extracted.
  destruct a as [self|self|self|self|self|self|self]; simpl;
    try (intros H; apply read_then_metadata_returns in H;
         destruct H as (?&?&?); by eauto 10);
    try by intros.
  rewrite csv_load_data_run; simpl.
  destruct (pandas_read read_csv _ _ w) as [e|[df' w']] eqn:Hr; [done|].
  destruct (startswith "https://" (CSVDataAdapter.path self)) eqn:Hs.
  - intros [= <- <- <-]; simpl. do 2 eexists. split; [done|]. right. by eauto 10.
  - simpl. destruct (get_file_metadata _ w') as [e|md'] eqn:Hmd; [done|].
    intros [= <- <- <-]; simpl. do 2 eexists. split; [done|]. left. by rewrite Hmd.
Qed.

End SaveLoad.

(** C4, as stated, fails: a CSV load from an [https://] URL succeeds and
    returns its frame and a metadata mapping without any metadata extraction
    taking place; the read is the last call it makes. *)
Lemma csv_load_over_https_returns_without_extraction :
  let C := InMemory.collaborators InMemory.python_3_11 in
  let url := "https://example.org/frame.csv" in
  let w : InMemory.files := {[url := InMemory.frame]} in
  run (load_data (CSV (CSVDataAdapter.new url)) PandasDataFrame) w
    = Returns (InMemory.frame, {["path" := VStr url]})
        (mkState w [PandasRead read_csv (SrcStr url) ∅]) ∧
  ¬ (∃ loc, GetFileMetadata loc
            ∈ calls (final_state
                (run (load_data (CSV (CSVDataAdapter.new url)) PandasDataFrame) w))).
Proof.
  intros C url w.
  assert (E : run (load_data (CSV (CSVDataAdapter.new url)) PandasDataFrame) w
    = Returns (InMemory.frame, {["path" := VStr url]})
        (mkState w [PandasRead read_csv (SrcStr url) ∅])) by reflexivity.
  split; [exact E|]. rewrite E; simpl. intros [loc Hin].
  apply list_elem_of_singleton in Hin. discriminate.
Qed.

(** C4 (as amended). For every adapter, [save_data] is the pandas write on
    the configured location followed by [get_file_metadata] there: it
    succeeds exactly when both do and then returns exactly the extractor's
    answer.  [load_data] is the pandas read on the configured location
    followed by the metadata step: it returns the frame pandas read together
    with the extractor's answer, the extractor being the last call, except
    for the CSV adapter on a path starting with [https://], which returns
    the mapping holding the path and never calls the extractor. *)
Theorem save_and_load_end_with_metadata {World : Type} `{!Collaborators World}
    (a : adapter) (w : World) :
  (issubclass (class_of a) DataSaver = true →
   ∀ data, ∃ fn kw,
     run (save_data a data) w =
     match pandas_write fn data (location a) kw w with
     | inl e => Raises e (mkState w [PandasWrite fn data (location a) kw])
     | inr w' =>
         let s := mkState w' [PandasWrite fn data (location a) kw;
                              GetFileMetadata (location a)] in
         match get_file_metadata (location a) w' with
         | inl e => Raises e s
         | inr md => Returns md s
         end
     end) ∧
  (issubclass (class_of a) DataLoader = true →
   ∀ type_, ∃ fn kw,
     run (load_data a type_) w =
     match pandas_read fn (location a) kw w with
     | inl e => Raises e (mkState w [PandasRead fn (location a) kw])
     | inr (df, w') =>
         if skips_extractor a
         then Returns (df, {["path" := file_source_val (location a)]})
                (mkState w' [PandasRead fn (location a) kw])
         else
           let s := mkState w' [PandasRead fn (location a) kw;
                                GetFileMetadata (location a)] in
           match get_file_metadata (location a) w' with
           | inl e => Raises e s
           | inr md => Returns (df, md) s
           end
     end).
Proof.
  split.
  - intros Hb data.
    destruct a as [self|self|self|self|self|self|self]; try discriminate Hb;
      eexists _, _; apply write_then_metadata.
  - intros Hb type_.
    destruct a as [self|self|self|self|self|self|self]; try discriminate Hb;
      try (eexists _, _; apply read_then_metadata).
    exists read_csv, (CSVDataAdapter._get_loading_kwargs self).
    simpl. rewrite csv_load_data_run; simpl.
    destruct (pandas_read read_csv _ _ w) as [e|[df w']]; [done|].
    by destruct (startswith "https://" (CSVDataAdapter.path self)).
Qed.

Lemma save_and_load_end_with_metadata_witness :
  let C := InMemory.collaborators InMemory.python_3_11 in
  let a := Parquet (ParquetDataLoader.new "frame.parquet") in
  let w : InMemory.files := {["frame.parquet" := InMemory.frame]} in
  (issubclass (class_of a) DataSaver = true ∧
   run (save_data a InMemory.frame) (∅ : InMemory.files)
     = Returns (<["size" := VInt 2]> {["path" := VStr "frame.parquet"]})
         (mkState w [PandasWrite to_parquet InMemory.frame (SrcStr "frame.parquet") ∅;
                     GetFileMetadata (SrcStr "frame.parquet")]) ∧
   ∃ fn kw,
     run (save_data a InMemory.frame) (∅ : InMemory.files) =
     match pandas_write fn InMemory.frame (location a) kw ∅ with
     | inl e => Raises e (mkState ∅ [PandasWrite fn InMemory.frame (location a) kw])
     | inr w' =>
         let s := mkState w' [PandasWrite fn InMemory.frame (location a) kw;
                              GetFileMetadata (location a)] in
         match get_file_metadata (location a) w' with
         | inl e => Raises e s
         | inr md => Returns md s
         end
     end) ∧
  (issubclass (class_of a) DataLoader = true ∧
   run (load_data a PandasDataFrame) w
     = Returns (InMemory.frame,
                <["size" := VInt 2]> {["path" := VStr "frame.parquet"]})
         (mkState w [PandasRead read_parquet (SrcStr "frame.parquet") ∅;
                     GetFileMetadata (SrcStr "frame.parquet")]) ∧
   ∃ fn kw,
     run (load_data a PandasDataFrame) w =
     match pandas_read fn (location a) kw w with
     | inl e => Raises e (mkState w [PandasRead fn (location a) kw])
     | inr (df, w') =>
         if skips_extractor a
         then Returns (df, {["path" := file_source_val (location a)]})
                (mkState w' [PandasRead fn (location a) kw])
         else
           let s := mkState w' [PandasRead fn (location a) kw;
                                GetFileMetadata (location a)] in
           match get_file_metadata (location a) w' with
           | inl e => Raises e s
           | inr md => Returns (df, md) s
           end
     end).
Proof.
  intros C a w.
  assert (Hs : issubclass (class_of a) DataSaver = true) by reflexivity.
  assert (Hl : issubclass (class_of a) DataLoader = true) by reflexivity.
  exact (conj
    (conj Hs (conj eq_refl
       (proj1 (save_and_load_end_with_metadata a ∅) Hs InMemory.frame)))
    (conj Hl (conj eq_refl
       (proj2 (save_and_load_end_with_metadata a w) Hl PandasDataFrame)))).
Defined.


(** ** Keyword arguments: what is passed and what is left out *)

Section PassedKwargs.
Context {World : Type} `{!Collaborators World}.

Lemma passed_by_write_then_metadata fn data loc kw (w : World) :
  passed_kwargs (calls (final_state
    (run (pd_write fn data loc kw ;; utils_get_file_metadata loc) w))) = [kw].
Proof.
  rewrite write_then_metadata.
  destruct (pandas_write fn data loc kw w) as [e|w']; [done|]; simpl.
  by destruct (get_file_metadata loc w').
Qed.

Lemma passed_by_read_then_metadata fn loc kw (w : World) :
  passed_kwargs (calls (final_state
    (run (df ← pd_read fn loc kw ;
          metadata ← utils_get_file_metadata loc ;
          mret (df, metadata)) w))) = [kw].
Proof.
  rewrite read_then_metadata.
  destruct (pandas_read fn loc kw w) as [e|[df w']]; [done|]; simpl.
  by destruct (get_file_metadata loc w').
Qed.

Lemma passed_by_csv_load (self : CSVDataAdapter.t) type_ (w : World) :
  passed_kwargs (calls (final_state (run (CSVDataAdapter.load_data self type_) w)))
  = [CSVDataAdapter._get_loading_kwargs self].
Proof.
  rewrite csv_load_data_run; simpl.
  destruct (pandas_read read_csv _ _ w) as [e|[df w']]; [done|].
  destruct (startswith "https://" (CSVDataAdapter.path self)); [done|]; simpl.
  by destruct (get_file_metadata _ w').
Qed.

(** The keyword arguments of the one pandas call each method makes. *)
Lemma load_call_kwargs_eq (a : adapter) type_ (w : World) :
  load_call_kwargs a type_ w =
  match a with
  | CSV self => [CSVDataAdapter._get_loading_kwargs self]
  | Feather _ | Parquet _ => [∅]
  | PickleReader self => [PandasPickleReader._get_loading_kwargs self]
  | JsonReader self => [PandasJsonReader._get_loading_kwargs self]
  | PickleWriter _ | JsonWriter _ => []
  end.
Proof.
  unfold load_call_kwargs.
  destruct a; simpl;
    first [ apply passed_by_csv_load | apply passed_by_read_then_metadata | done ].
Qed.

Lemma save_call_kwargs_eq (a : adapter) data (w : World) :
  save_call_kwargs a data w =
  match a with
  | CSV self => [CSVDataAdapter._get_saving_kwargs self]
  | Feather _ | Parquet _ => [∅]
  | PickleWriter self => [PandasPickleWriter._get_saving_kwargs self]
  | JsonWriter self => [PandasJsonWriter._get_saving_kwargs self]
  | PickleReader _ | JsonReader _ => []
  end.
Proof.
  unfold save_call_kwargs.
  destruct a; simpl; first [ apply passed_by_write_then_metadata | done ].
Qed.
End PassedKwargs.

(** Looking a key up through one [if ...: kwargs[k'] = v] statement. *)
Lemma lookup_assign_if_ne (c : bool) (k k' : string) (v : pyval) (m : Kwargs) :
  k ≠ k' → assign_if c k' v m !! k = m !! k.
Proof. intros Hne. unfold assign_if. destruct c; [by rewrite lookup_insert_ne|done]. Qed.

Lemma lookup_assign_if_None (k k' : string) (m : Kwargs) :
  assign_if (is_not_None VNone) k' VNone m !! k = m !! k.
Proof. done. Qed.

Lemma lookup_assign_if_gated_None (g : bool) (k k' : string) (m : Kwargs) :
  assign_if (g && is_not_None VNone) k' VNone m !! k = m !! k.
Proof. by destruct g. Qed.

(** Walks down a chain of guarded assignments looking for a key whose own
    guard is known to be false. *)
Ltac skip_guarded_inserts :=
  cbv zeta;
  repeat first
    [ rewrite lookup_assign_if_ne by done
    | rewrite lookup_assign_if_None
    | rewrite lookup_assign_if_gated_None ];
  first [ apply lookup_empty | by rewrite lookup_singleton_ne ].

Ltac field_cases H :=
  repeat (apply elem_of_cons in H as [H|H]; [injection H as -> H|]);
  [..|by apply elem_of_nil in H].

Section OmitNone.
Context {World : Type} `{!Collaborators World}.

Lemma csv_loading_omits_None (self : CSVDataAdapter.t) k :
  (k, VNone) ∈ CSVDataAdapter.optional_fields self →
  CSVDataAdapter._get_loading_kwargs self !! k = None.
Proof.
  intros H. unfold CSVDataAdapter.optional_fields in H. field_cases H.
  all: unfold CSVDataAdapter._get_loading_kwargs; rewrite <- ?H;
    skip_guarded_inserts.
Qed.

Lemma csv_saving_omits_None (self : CSVDataAdapter.t) k :
  (k, VNone) ∈ CSVDataAdapter.optional_fields self →
  CSVDataAdapter._get_saving_kwargs self !! k = None.
Proof.
  intros H. unfold CSVDataAdapter.optional_fields in H. field_cases H.
  all: unfold CSVDataAdapter._get_saving_kwargs; rewrite <- ?H;
    skip_guarded_inserts.
Qed.

Lemma pickle_loading_omits_None (self : PandasPickleReader.t) k :
  (k, VNone) ∈ PandasPickleReader.optional_fields self →
  PandasPickleReader._get_loading_kwargs self !! k = None.
Proof.
  intros H. unfold PandasPickleReader.optional_fields in H. field_cases H.
  all: unfold PandasPickleReader._get_loading_kwargs; rewrite <- ?H;
    skip_guarded_inserts.
Qed.

Lemma pickle_saving_omits_None (self : PandasPickleWriter.t) k :
  (k, VNone) ∈ PandasPickleWriter.optional_fields self →
  PandasPickleWriter._get_saving_kwargs self !! k = None.
Proof.
  intros H. unfold PandasPickleWriter.optional_fields in H. field_cases H.
  all: unfold PandasPickleWriter._get_saving_kwargs; rewrite <- ?H;
    skip_guarded_inserts.
Qed.

Lemma json_loading_omits_None (self : PandasJsonReader.t) k :
  (k, VNone) ∈ PandasJsonReader.optional_fields self →
  PandasJsonReader._get_loading_kwargs self !! k = None.
Proof.
  intros H. unfold PandasJsonReader.optional_fields in H. field_cases H.
  all: unfold PandasJsonReader._get_loading_kwargs; rewrite <- ?H;
    skip_guarded_inserts.
Qed.

Lemma json_saving_omits_None (self : PandasJsonWriter.t) k :
  (k, VNone) ∈ PandasJsonWriter.optional_fields self →
  k ≠ "lines" →
  PandasJsonWriter._get_saving_kwargs self !! k = None.
Proof.
  intros H Hk. unfold PandasJsonWriter.optional_fields in H. field_cases H.
  all: try done.
  all: unfold PandasJsonWriter._get_saving_kwargs; rewrite <- ?H;
    skip_guarded_inserts.
Qed.
End OmitNone.

(** C1, as stated, fails: a pickle reader built with every optional field at
    its declared default passes [compression="infer"] to [read_pickle], so
    the keyword arguments of the call are not empty. *)
Lemma default_pickle_reader_passes_compression :
  let C := InMemory.collaborators InMemory.python_3_11 in
  let a := PickleReader (PandasPickleReader.new (SrcStr "frame.pkl")) in
  load_call_kwargs a PandasDataFrame (∅ : InMemory.files)
    = [{["compression" := VStr "infer"]}] ∧
  ¬ Forall (λ kw : Kwargs, kw = ∅)
      (load_call_kwargs a PandasDataFrame (∅ : InMemory.files)).
Proof.
  intros C a.
  assert (E : load_call_kwargs a PandasDataFrame (∅ : InMemory.files)
              = [{["compression" := VStr "infer"]}]).
  { rewrite load_call_kwargs_eq. reflexivity. }
  split; [exact E|].
  rewrite E. intros H. apply Forall_cons in H as [H _].
  apply (f_equal (λ m : Kwargs, m !! "compression")) in H.
  rewrite lookup_singleton_eq, lookup_empty in H. discriminate.
Qed.

(** ** Metadata for locations that cannot be stat'ed *)

(** Names the pandas call on the right of an equation after the one on the
    left. *)
Ltac same_call f :=
  match goal with
  | |- ?lhs = ?rhs =>
      match lhs with
      | context [f ?x1 ?x2 ?x3 ?x4 ?x5] =>
          match rhs with
          | context [f ?y1 ?y2 ?y3 ?y4 ?y5] =>
              unify y1 x1; unify y2 x2; unify y3 x3; unify y4 x4; unify y5 x5
          end
      | context [f ?x1 ?x2 ?x3 ?x4] =>
          match rhs with
          | context [f ?y1 ?y2 ?y3 ?y4] =>
              unify y1 x1; unify y2 x2; unify y3 x3; unify y4 x4
          end
      end
  end.

(** C3. With the metadata extractor of the framework (spec-modelled), a load
    or save on a location that cannot be stat'ed, such as an [https://]
    URL, never fails in its metadata step: the outcome is decided by the
    pandas call alone, and whenever that call succeeds the method returns,
    with the mapping holding the location itself as metadata.  For the CSV
    loader on an [https://] path the mapping is built by the adapter itself,
    without the extractor. *)
Theorem metadata_degrades_to_location {World : Type} (v : version_info_t)
    (rd : pd_reader → file_source → Kwargs → World → exn + DataFrame * World)
    (wr : pd_writer → DataFrame → file_source → Kwargs → World → exn + World)
    (stat : file_source → World → option Z)
    (a : adapter) (w : World) :
  (∀ w', stat (location a) w' = None) →
  let C := spec_collaborators v rd wr stat in
  (issubclass (class_of a) DataSaver = true →
   ∀ data, ∃ fn kw,
     run (save_data a data) w =
     match wr fn data (location a) kw w with
     | inl e => Raises e (mkState w [PandasWrite fn data (location a) kw])
     | inr w' =>
         Returns {["path" := file_source_val (location a)]}
           (mkState w' [PandasWrite fn data (location a) kw;
                        GetFileMetadata (location a)])
     end) ∧
  (issubclass (class_of a) DataLoader = true →
   ∀ type_, ∃ fn kw,
     run (load_data a type_) w =
     match rd fn (location a) kw w with
     | inl e => Raises e (mkState w [PandasRead fn (location a) kw])
     | inr (df, w') =>
         Returns (df, {["path" := file_source_val (location a)]})
           (mkState w'
              (if skips_extractor a
               then [PandasRead fn (location a) kw]
               else [PandasRead fn (location a) kw; GetFileMetadata (location a)]))
     end).
Proof.
  intros Hstat C. split.
  - intros Hb data.
    destruct a as [self|self|self|self|self|self|self]; try discriminate Hb;
      simpl in Hstat; eexists _, _;
      (etransitivity; [apply write_then_metadata|]); simpl;
      same_call wr;
      match goal with |- context [wr ?f ?d ?l ?k w] => destruct (wr f d l k w) end;
      try done; unfold spec_get_file_metadata; by rewrite Hstat.
  - intros Hb type_.
    destruct a as [self|self|self|self|self|self|self]; try discriminate Hb;
      simpl in Hstat;
      try (eexists _, _; (etransitivity; [apply read_then_metadata|]); simpl;
           same_call rd;
           match goal with |- context [rd ?f ?l ?k w] =>
             destruct (rd f l k w) as [e|[df w']] end;
           try done; unfold spec_get_file_metadata; by rewrite Hstat).
    exists read_csv, (CSVDataAdapter._get_loading_kwargs self).
    simpl. rewrite csv_load_data_run; simpl.
    destruct (rd read_csv _ _ w) as [e|[df w']]; [done|].
    destruct (startswith "https://" (CSVDataAdapter.path self)); [done|].
    simpl. unfold spec_get_file_metadata. by rewrite Hstat.
Qed.

Lemma metadata_degrades_to_location_witness :
  let a := Feather (FeatherDataLoader.new "https://example.org/frame.feather") in
  let loc := SrcStr "https://example.org/frame.feather" in
  let C := InMemory.collaborators InMemory.python_3_11 in
  let w : InMemory.files := {["https://example.org/frame.feather" := InMemory.frame]} in
  (∀ w', InMemory.stat (location a) w' = None) ∧
  issubclass (class_of a) DataSaver = true ∧
  issubclass (class_of a) DataLoader = true ∧
  run (save_data a InMemory.frame) (∅ : InMemory.files)
    = Returns {["path" := VStr "https://example.org/frame.feather"]}
        (mkState w [PandasWrite to_feather InMemory.frame loc ∅;
                    GetFileMetadata loc]) ∧
  run (load_data a PandasDataFrame) w
    = Returns (InMemory.frame, {["path" := VStr "https://example.org/frame.feather"]})
        (mkState w [PandasRead read_feather loc ∅; GetFileMetadata loc]) ∧
  (∃ fn kw,
     run (save_data a InMemory.frame) (∅ : InMemory.files) =
     match InMemory.write fn InMemory.frame (location a) kw ∅ with
     | inl e => Raises e (mkState ∅ [PandasWrite fn InMemory.frame (location a) kw])
     | inr w' =>
         Returns {["path" := file_source_val (location a)]}
           (mkState w' [PandasWrite fn InMemory.frame (location a) kw;
                        GetFileMetadata (location a)])
     end).
Proof.
  intros a loc C w.
  assert (H : ∀ w', InMemory.stat (location a) w' = None) by (intros w'; reflexivity).
  assert (Hs : issubclass (class_of a) DataSaver = true) by reflexivity.
  exact (conj H (conj Hs (conj eq_refl (conj eq_refl (conj eq_refl
    (proj1 (metadata_degrades_to_location InMemory.python_3_11 InMemory.read
              InMemory.write InMemory.stat a ∅ H) Hs InMemory.frame)))))).
Defined.

(** ** Names and applicable types *)

(** C5. Each of the seven adapter classes reports its format name and its
    applicable types from the class alone: whatever arguments an instance was
    built with, [applicable_types()] is exactly [[DataFrame]] and [name()] is
    the constant of its class, one of csv, feather, parquet, pickle, json. *)
Theorem name_and_types_are_fixed_per_class (a : adapter) :
  applicable_types (class_of a) = [PandasDataFrame] ∧
  name (class_of a) =
    match a with
    | CSV _ => "csv"
    | Feather _ => "feather"
    | Parquet _ => "parquet"
    | PickleReader _ | PickleWriter _ => "pickle"
    | JsonReader _ | JsonWriter _ => "json"
    end ∧
  name (class_of a) ∈ ["csv"; "feather"; "parquet"; "pickle"; "json"].
Proof.
  destruct a; simpl; (split; [reflexivity|]); (split; [reflexivity|]);
    apply (bool_decide_unpack _); reflexivity.
Qed.

(** ** Name and type as a key *)

(** C6, as stated, fails: the pickle reader and the pickle writer are two
    classes with the same format name whose applicable types are not
    disjoint (both apply to [DataFrame]). *)
Lemma pickle_reader_and_writer_share_name_and_type :
  PandasPickleReader_cls ≠ PandasPickleWriter_cls ∧
  name PandasPickleReader_cls = name PandasPickleWriter_cls ∧
  ¬ (∀ t, t ∈ applicable_types PandasPickleReader_cls →
          t ∉ applicable_types PandasPickleWriter_cls).
Proof.
  split; [discriminate|]. split; [reflexivity|].
  intros H. apply (H PandasDataFrame); apply (bool_decide_unpack _); reflexivity.
Qed.

(** C6 (as amended). Two adapter classes of this module that report the
    same format name, share an applicable type and inherit the same
    capability ([DataLoader] or [DataSaver]) are the same class: format
    name, value type and direction together identify an adapter. *)
Theorem name_type_and_direction_identify_adapter
    (c1 c2 : adapter_class) (t : pytype) (b : base_class) :
  name c1 = name c2 →
  t ∈ applicable_types c1 →
  t ∈ applicable_types c2 →
  issubclass c1 b = true →
  issubclass c2 b = true →
  c1 = c2.
Proof.
  intros Hn _ _ H1 H2.
  destruct c1, c2; try reflexivity; try discriminate Hn;
    destruct b; vm_compute in H1, H2; discriminate.
Qed.

Lemma name_type_and_direction_identify_adapter_witness :
  name PandasJsonReader_cls = name PandasJsonReader_cls ∧
  PandasDataFrame ∈ applicable_types PandasJsonReader_cls ∧
  issubclass PandasJsonReader_cls DataLoader = true ∧
  PandasJsonReader_cls = PandasJsonReader_cls.
Proof.
  assert (Ht : PandasDataFrame ∈ applicable_types PandasJsonReader_cls)
    by (apply (bool_decide_unpack _); reflexivity).
  assert (Hb : issubclass PandasJsonReader_cls DataLoader = true) by reflexivity.
  exact (conj eq_refl (conj Ht (conj Hb
    (name_type_and_direction_identify_adapter
       PandasJsonReader_cls PandasJsonReader_cls PandasDataFrame DataLoader
       eq_refl Ht Ht Hb Hb)))).
Defined.

(** ** The pickle protocol default *)

(** C7. [pickle_protocol_default] is 5 on Python 3.8 or later and 4
    otherwise; it is what [PandasPickleWriter]'s [protocol] field defaults
    to, and a writer built with the defaults passes it to [to_pickle] as
    [protocol=...] on every save. *)
Theorem pickle_protocol_default_is_passed {World : Type} `{!Collaborators World}
    (path : file_source) (data : DataFrame) (w : World) :
  (∀ v, pickle_protocol_default v = if is_python_3_8_or_later v then 5 else 4) ∧
  PandasPickleWriter.protocol (PandasPickleWriter.new path)
    = VInt (pickle_protocol_default version_info) ∧
  save_call_kwargs (PickleWriter (PandasPickleWriter.new path)) data w
    = [PandasPickleWriter._get_saving_kwargs (PandasPickleWriter.new path)] ∧
  Forall (λ kw : Kwargs,
            kw !! "protocol" = Some (VInt (pickle_protocol_default version_info)))
    (save_call_kwargs (PickleWriter (PandasPickleWriter.new path)) data w).
Proof.
  split.
  { intros [ma mi mc]. unfold pickle_protocol_default, is_python_3_8_or_later, as_tuple.
    simpl.
    destruct (ma <? 3) eqn:E1, (3 <? ma) eqn:E2, (ma =? 3) eqn:E3;
      destruct (mi <? 8) eqn:E4, (8 <? mi) eqn:E5, (8 <=? mi) eqn:E6;
      simpl; try reflexivity; lia. }
  split; [reflexivity|].
  rewrite save_call_kwargs_eq. split; [reflexivity|].
  repeat constructor.
Qed.

(** ** Registration at import *)

(** C8. Executing the module body (with pandas installed) registers once:
    after the two single-dispatch registrations it calls [register_types]
    with ["pandas"], [DataFrame], [Series], and then [register_adapter] once
    for each of the seven adapter classes, in the order of the source, and
    for nothing else. *)
Theorem import_registers_each_adapter_once (log : registry_log) :
  import_module true log =
    inr (log ++ [GetColumnRegister PandasDataFrame;
                 FillWithScalarRegister PandasDataFrame;
                 RegisterTypes "pandas" PandasDataFrame PandasSeries;
                 RegisterAdapter CSVDataAdapter_cls;
                 RegisterAdapter FeatherDataLoader_cls;
                 RegisterAdapter ParquetDataLoader_cls;
                 RegisterAdapter PandasPickleReader_cls;
                 RegisterAdapter PandasPickleWriter_cls;
                 RegisterAdapter PandasJsonReader_cls;
                 RegisterAdapter PandasJsonWriter_cls])%list ∧
  (∀ log', import_module true [] = inr log' →
     registered_types log' = [("pandas", PandasDataFrame, PandasSeries)] ∧
     registered_adapters log' =
       [CSVDataAdapter_cls; FeatherDataLoader_cls; ParquetDataLoader_cls;
        PandasPickleReader_cls; PandasPickleWriter_cls;
        PandasJsonReader_cls; PandasJsonWriter_cls] ∧
     ∀ cls, length (filter (λ c, c = cls) (registered_adapters log')) = 1%nat).
Proof.
  split.
  - unfold import_module, register_data_loaders, register_types,
      registry_register_types, registry_register_adapter; simpl.
    by rewrite <- !app_assoc.
  - intros log' [= <-]. split; [reflexivity|]. split; [reflexivity|].
    intros []; reflexivity.
Qed.

Lemma import_registers_each_adapter_once_witness :
  ∃ log', import_module true [] = inr log' ∧
    registered_types log' = [("pandas", PandasDataFrame, PandasSeries)] ∧
    registered_adapters log' =
      [CSVDataAdapter_cls; FeatherDataLoader_cls; ParquetDataLoader_cls;
       PandasPickleReader_cls; PandasPickleWriter_cls;
       PandasJsonReader_cls; PandasJsonWriter_cls] ∧
    ∀ cls, length (filter (λ c, c = cls) (registered_adapters log')) = 1%nat.
Proof.
  eexists. split; [reflexivity|].
  apply (proj2 (import_registers_each_adapter_once [])). reflexivity.
Defined.

(** ** The model saver's run-id conflict *)

(** C9. With the model saver (spec-modelled): when the caller's run id
    differs from the run that is active, [save_data] raises the conflict
    error ([RuntimeError]) and leaves the tracking store as it found it, so
    no artifact is logged under either run. *)
Theorem save_data_conflicting_run_id (self : MLFlowModelSaver.t) (data : N)
    (st : mlflow.tracking) (wanted active_id : string) :
  MLFlowModelSaver.run_id self = Some wanted →
  mlflow.active_run st = Some active_id →
  wanted ≠ active_id →
  ∃ msg st',
    MLFlowModelSaver.save_data self data st = Raises (RuntimeError msg) st' ∧
    st' = st ∧
    mlflow.artifacts_of wanted st' = mlflow.artifacts_of wanted st ∧
    mlflow.artifacts_of active_id st' = mlflow.artifacts_of active_id st.
Proof.
  intros Hrun Hact Hne. unfold MLFlowModelSaver.save_data.
  rewrite Hrun, Hact. rewrite bool_decide_true by congruence.
  by eexists _, _.
Qed.

Lemma save_data_conflicting_run_id_witness :
  let saver := MLFlowModelSaver.new (Some "sklearn") (Some "run-0") in
  let st := mlflow.mkTracking 2 ["run-0"; "run-1"] (Some "run-1") [] in
  test_mlflow_log_model_active_and_specific_run_ids_are_unequal 7
    = Some (st, MLFlowModelSaver.save_data saver 7 st) ∧
  pytest_raises_RuntimeError (MLFlowModelSaver.save_data saver 7 st) = true ∧
  ∃ msg st',
    MLFlowModelSaver.save_data saver 7 st = Raises (RuntimeError msg) st' ∧
    st' = st ∧
    mlflow.artifacts_of "run-0" st' = mlflow.artifacts_of "run-0" st ∧
    mlflow.artifacts_of "run-1" st' = mlflow.artifacts_of "run-1" st.
Proof.
  intros saver st.
  split; [vm_compute; reflexivity|]. split; [vm_compute; reflexivity|].
  apply (save_data_conflicting_run_id saver 7 st "run-0" "run-1");
    [reflexivity | reflexivity | discriminate].
Defined.

(** ** Filling a column in place *)

Lemma overwrite_names (cols : list (string * list pyval)) col cells :
  (overwrite col cells <$> cols).*1 = cols.*1.
Proof.
  induction cols as [|x cols IH]; [done|].
  rewrite !fmap_cons, IH. unfold overwrite. by case_bool_decide.
Qed.

Lemma overwrite_absent (cols : list (string * list pyval)) col cells :
  col ∉ cols.*1 → overwrite col cells <$> cols = cols.
Proof.
  induction cols as [|x cols IH]; [done|].
  rewrite !fmap_cons, not_elem_of_cons. intros [Hx Hc].
  unfold overwrite at 1. rewrite bool_decide_false by done. by rewrite IH.
Qed.

Lemma overwrite_cells (cols : list (string * list pyval)) col cells c :
  c ∈ overwrite col cells <$> cols → c.1 = col → c.2 = cells.
Proof.
  intros (x & -> & _)%list_elem_of_fmap. unfold overwrite.
  by case_bool_decide.
Qed.

(** Columns under another label are not touched by the assignment. *)
Lemma filter_overwrite_ne (cols : list (string * list pyval)) col cells :
  filter (λ c : string * list pyval, c.1 ≠ col) (overwrite col cells <$> cols)
  = filter (λ c : string * list pyval, c.1 ≠ col) cols.
Proof.
  induction cols as [|x cols IH]; [done|].
  rewrite fmap_cons. unfold overwrite at 1. case_bool_decide as Hx.
  - rewrite !filter_cons_False by (simpl; tauto). done.
  - rewrite !filter_cons_True by done. by rewrite IH.
Qed.

Lemma filter_overwrite_other (cols : list (string * list pyval)) col cells c0 :
  c0 ≠ col →
  filter (λ c : string * list pyval, c.1 = c0) (overwrite col cells <$> cols)
  = filter (λ c : string * list pyval, c.1 = c0) cols.
Proof.
  intros Hne. induction cols as [|x cols IH]; [done|].
  rewrite fmap_cons. unfold overwrite at 1. case_bool_decide as Hx.
  - rewrite !filter_cons_False by (simpl; congruence). done.
  - destruct (decide (x.1 = c0)).
    + rewrite !filter_cons_True by done. by rewrite IH.
    + rewrite !filter_cons_False by done. done.
Qed.

Lemma filter_absent (cols : list (string * list pyval)) col :
  col ∉ cols.*1 → filter (λ c : string * list pyval, c.1 = col) cols = [].
Proof.
  induction cols as [|x cols IH]; [done|].
  rewrite fmap_cons, not_elem_of_cons. intros [Hx Hc].
  rewrite filter_cons_False by (simpl; congruence). by apply IH.
Qed.

(** With distinct labels, the assigned label selects the one new column. *)
Lemma filter_overwrite_eq (cols : list (string * list pyval)) col cells :
  NoDup cols.*1 → col ∈ cols.*1 →
  filter (λ c : string * list pyval, c.1 = col) (overwrite col cells <$> cols)
  = [(col, cells)].
Proof.
  induction cols as [|x cols IH]; [by intros _ ?%elem_of_nil|].
  rewrite !fmap_cons, NoDup_cons, elem_of_cons. intros [Hx Hnd] Hin.
  unfold overwrite at 1. case_bool_decide as Hxc.
  - rewrite filter_cons_True by done. subst col.
    by rewrite overwrite_absent, filter_absent by done.
  - rewrite filter_cons_False by done. apply IH; [done|].
    destruct Hin as [->|Hin]; done.
Qed.

(** What storing a column leaves behind. *)
Lemma set_column_spec col cells (d : DataFrame) :
  let d' := set_column col cells d in
  df_index d' = df_index d ∧
  col ∈ (df_columns d').*1 ∧
  (∀ c, c ∈ df_columns d' → c.1 = col → c.2 = cells) ∧
  filter (λ c, c.1 ≠ col) (df_columns d') = filter (λ c, c.1 ≠ col) (df_columns d) ∧
  (∀ c0, c0 ≠ col → getitem d' c0 = getitem d c0).
Proof.
  destruct d as [idx cols]. unfold set_column; simpl.
  case_bool_decide as Hin; simpl.
  - split; [done|]. split; [by rewrite overwrite_names|].
    split; [intros c; apply overwrite_cells|]. split.
    + apply filter_overwrite_ne.
    + intros c0 Hc0. unfold getitem; simpl.
      by rewrite filter_overwrite_other.
  - split; [done|]. split; [rewrite fmap_app; apply elem_of_app; right; by left|].
    split.
    + intros c [Hc|Hc]%elem_of_app Hcol.
      * exfalso. apply Hin. apply list_elem_of_fmap. by exists c.
      * by apply list_elem_of_singleton in Hc as ->.
    + split.
      * rewrite filter_app, filter_cons_False, filter_nil, app_nil_r; simpl; tauto.
      * intros c0 Hc0. unfold getitem; simpl.
        rewrite filter_app, filter_cons_False, filter_nil, app_nil_r; [done|].
        simpl. congruence.
Qed.

Lemma set_column_getitem col cells (d : DataFrame) :
  NoDup (df_columns d).*1 →
  getitem (set_column col cells d) col = inr (Column cells).
Proof.
  destruct d as [idx cols]. unfold set_column, getitem; simpl. intros Hnd.
  case_bool_decide as Hin; simpl.
  - by rewrite filter_overwrite_eq.
  - rewrite filter_app, filter_absent by done. simpl.
    by rewrite filter_cons_True, filter_nil.
Qed.

Lemma set_column_set_column col cells cells' (d : DataFrame) :
  set_column col cells' (set_column col cells d) = set_column col cells' d.
Proof.
  destruct d as [idx cols]. unfold set_column at 2; simpl.
  case_bool_decide as Hin; unfold set_column; simpl.
  - rewrite overwrite_names, !bool_decide_true by done. f_equal.
    rewrite <- list_fmap_compose. apply list_fmap_ext. intros i x _; simpl.
    unfold overwrite. destruct (bool_decide (x.1 = col)) eqn:Hx; simpl; by rewrite Hx.
  - rewrite fmap_app, bool_decide_true by (apply elem_of_app; right; by left).
    rewrite bool_decide_false by done. f_equal.
    rewrite fmap_app, overwrite_absent by done. simpl.
    unfold overwrite; simpl. by rewrite bool_decide_true.
Qed.

(** C10. For a scalar [value],
    [fill_with_scalar_pandas(df, column_name, value)] works in place: it
    returns the very reference it was given, the frame behind that reference
    now carries [value] in every row of every column labelled
    [column_name] (there is one), its index and every other column are as
    before, and no other object on the heap is touched. *)
Theorem fill_with_scalar_pandas_in_place `{!FrameAssignment} (h : heap) (df : ref)
    (d : DataFrame) (column_name : string) (value : pyval) :
  h !! df = Some d →
  is_scalar value = true →
  ∃ d',
    fill_with_scalar_pandas df column_name value h
      = Some (Returns df (<[df := d']> h)) ∧
    df_index d' = df_index d ∧
    column_name ∈ (df_columns d').*1 ∧
    (∀ c, c ∈ df_columns d' → c.1 = column_name →
          c.2 = replicate (length (df_index d)) value) ∧
    filter (λ c, c.1 ≠ column_name) (df_columns d')
      = filter (λ c, c.1 ≠ column_name) (df_columns d) ∧
    (∀ other, other ≠ df → (<[df := d']> h) !! other = h !! other).
Proof.
  intros Hd Hv.
  exists (set_column column_name (replicate (length (df_index d)) value) d).
  destruct (set_column_spec column_name (replicate (length (df_index d)) value) d)
    as (Hidx & Hin & Hcells & Hrest & _).
  split.
  - unfold fill_with_scalar_pandas, setitem. rewrite Hd; simpl. by rewrite Hv.
  - repeat split; try done. intros other Hne. by rewrite lookup_insert_ne.
Qed.

Lemma fill_with_scalar_pandas_in_place_witness :
  let A := InMemory.frame_assignment in
  let h : heap := {[ 1%positive := InMemory.frame ]} in
  h !! 1%positive = Some InMemory.frame ∧
  is_scalar (VInt 0) = true ∧
  ∃ d',
    fill_with_scalar_pandas 1%positive "b" (VInt 0) h
      = Some (Returns 1%positive (<[1%positive := d']> h)) ∧
    df_index d' = df_index InMemory.frame ∧
    "b" ∈ (df_columns d').*1 ∧
    (∀ c, c ∈ df_columns d' → c.1 = "b" →
          c.2 = replicate (length (df_index InMemory.frame)) (VInt 0)) ∧
    filter (λ c, c.1 ≠ "b") (df_columns d')
      = filter (λ c, c.1 ≠ "b") (df_columns InMemory.frame) ∧
    (∀ other, other ≠ 1%positive → (<[1%positive := d']> h) !! other = h !! other).
Proof.
  intros A h.
  assert (H : h !! 1%positive = Some InMemory.frame) by reflexivity.
  exact (conj H (conj eq_refl
    (fill_with_scalar_pandas_in_place h 1%positive InMemory.frame "b" (VInt 0)
       H eq_refl))).
Defined.

(** ** The adapters on concrete inputs *)

Example default_csv_kwargs :
  CSVDataAdapter._get_loading_kwargs (CSVDataAdapter.new "frame.csv") = ∅ ∧
  CSVDataAdapter._get_saving_kwargs (CSVDataAdapter.new "frame.csv")
    = {["index" := VBool false]} ∧
  CSVDataAdapter._get_saving_kwargs (CSVDataAdapter.new_ "frame.csv" (VStr ";"))
    = <["sep" := VStr ";"]> {["index" := VBool false]}.
Proof. repeat split. Qed.

Example default_pickle_writer_kwargs :
  let C := InMemory.collaborators InMemory.python_3_7 in
  PandasPickleWriter._get_saving_kwargs (PandasPickleWriter.new (SrcStr "frame.pkl"))
    = <["protocol" := VInt 4]> {["compression" := VStr "infer"]}.
Proof. reflexivity. Qed.

Example default_json_reader_kwargs :
  let C := InMemory.collaborators InMemory.python_3_11 in
  dom (PandasJsonReader._get_loading_kwargs (PandasJsonReader.new (SrcStr "frame.json")))
    = list_to_set ["compression"; "convert_dates"; "encoding_errors"; "engine";
                   "keep_default_dates"; "lines"; "precise_float"; "typ"].
Proof. apply (bool_decide_unpack _). vm_compute. reflexivity. Qed.

Example default_json_writer_kwargs :
  let C := InMemory.collaborators InMemory.python_3_11 in
  dom (PandasJsonWriter._get_saving_kwargs (PandasJsonWriter.new (SrcStr "frame.json")))
    = list_to_set ["compression"; "date_format"; "date_unit"; "double_precision";
                   "force_ascii"; "indent"; "mode"].
Proof. apply (bool_decide_unpack _). vm_compute. reflexivity. Qed.

Example json_kwargs_before_3_8 :
  let C := InMemory.collaborators InMemory.python_3_7 in
  PandasJsonReader._get_loading_kwargs (PandasJsonReader.new (SrcStr "frame.json"))
    !! "engine" = None ∧
  PandasJsonWriter._get_saving_kwargs (PandasJsonWriter.new (SrcStr "frame.json"))
    !! "mode" = None.
Proof. split; reflexivity. Qed.

Example csv_load_over_https :
  let C := InMemory.collaborators InMemory.python_3_11 in
  let url := "https://example.org/frame.csv" in
  run (load_data (CSV (CSVDataAdapter.new url)) PandasDataFrame)
      ({[url := InMemory.frame]} : InMemory.files)
  = Returns (InMemory.frame, {["path" := VStr url]})
      (mkState {[url := InMemory.frame]} [PandasRead read_csv (SrcStr url) ∅]).
Proof. reflexivity. Qed.

Example tuple_lt_examples :
  tuple_lt [3; 7; 9] [3; 8] = true ∧ tuple_lt [3; 8; 0] [3; 8] = false ∧
  tuple_lt [2; 9; 0] [3; 8] = true ∧ tuple_lt [4; 0; 0] [3; 8] = false.
Proof. repeat split. Qed.

Example fill_new_column :
  let A := InMemory.frame_assignment in
  setitem "c" (VInt 0) InMemory.frame
  = inr (mkDataFrame [VInt 0; VInt 1]
      [("a", [VInt 1; VInt 2]); ("b", [VStr "x"; VNone]); ("c", [VInt 0; VInt 0])]).
Proof. reflexivity. Qed.

Example fill_existing_column :
  let A := InMemory.frame_assignment in
  setitem "a" (VInt 0) InMemory.frame
  = inr (mkDataFrame [VInt 0; VInt 1]
      [("a", [VInt 0; VInt 0]); ("b", [VStr "x"; VNone])]).
Proof. reflexivity. Qed.

Example fill_with_a_list_is_not_a_broadcast :
  let A := InMemory.frame_assignment in
  let h : heap := {[ 1%positive := InMemory.frame ]} in
  fill_with_scalar_pandas 1%positive "c" (VList [VInt 7]) h
  = Some (Raises (LibraryError "ValueError") h).
Proof. reflexivity. Qed.

Example getitem_of_a_duplicated_label :
  getitem (mkDataFrame [VInt 0] [("a", [VInt 1]); ("a", [VInt 2])]) "a"
  = inr (Columns (mkDataFrame [VInt 0] [("a", [VInt 1]); ("a", [VInt 2])])).
Proof. reflexivity. Qed.

Example import_without_pandas (log : registry_log) :
  import_module false log = inl (NotImplementedError "Pandas is not installed.").
Proof. reflexivity. Qed.

(** * Further properties of the adapters *)

(** ** Keyword arguments are the fields, passed through *)

Lemma lookup_assign_if_Some (c : bool) (k k' : string) (v v' : pyval) (m : Kwargs) :
  assign_if c k' v' m !! k = Some v →
  (c = true ∧ k = k' ∧ v = v') ∨ m !! k = Some v.
Proof.
  unfold assign_if. destruct c; [|by right].
  rewrite lookup_insert_Some. intros [[-> ->]|[_ H]]; [by left|by right].
Qed.

Lemma lookup_assign_if_eq (c : bool) (k : string) (v : pyval) (m : Kwargs) :
  c = true → assign_if c k v m !! k = Some v.
Proof. intros ->. apply lookup_insert_eq. Qed.

Lemma is_not_None_true (v : pyval) : v ≠ VNone → is_not_None v = true.
Proof. by destruct v. Qed.

Lemma is_not_False_true (v : pyval) : v ≠ VBool false → is_not_False v = true.
Proof. by destruct v as [|[]| | | | |]. Qed.

Ltac in_fields :=
  repeat first [ apply list_elem_of_here | apply list_elem_of_further ].

(** Peels the guarded assignments off a builder, newest first, until the
    entry at hand is found. *)
Ltac entry_cases H :=
  cbv zeta in H;
  repeat (apply lookup_assign_if_Some in H as [(_ & -> & ->)|H];
          [solve [in_fields | left; in_fields]|]).

Section Entries.
Context {World : Type} `{!Collaborators World}.

Lemma csv_loading_entry (self : CSVDataAdapter.t) k v :
  CSVDataAdapter._get_loading_kwargs self !! k = Some v →
  (k, v) ∈ CSVDataAdapter.optional_fields self ∨ (k = "index" ∧ v = VBool false).
Proof.
  unfold CSVDataAdapter._get_loading_kwargs, CSVDataAdapter.optional_fields.
  intros H. entry_cases H. by rewrite lookup_empty in H.
Qed.

Lemma csv_saving_entry (self : CSVDataAdapter.t) k v :
  CSVDataAdapter._get_saving_kwargs self !! k = Some v →
  (k, v) ∈ CSVDataAdapter.optional_fields self ∨ (k = "index" ∧ v = VBool false).
Proof.
  unfold CSVDataAdapter._get_saving_kwargs, CSVDataAdapter.optional_fields.
  intros H. entry_cases H.
  apply lookup_singleton_Some in H as [<- <-]. by right.
Qed.

Lemma pickle_loading_entry (self : PandasPickleReader.t) k v :
  PandasPickleReader._get_loading_kwargs self !! k = Some v →
  (k, v) ∈ PandasPickleReader.optional_fields self.
Proof.
  unfold PandasPickleReader._get_loading_kwargs, PandasPickleReader.optional_fields.
  intros H. entry_cases H. by rewrite lookup_empty in H.
Qed.

Lemma pickle_saving_entry (self : PandasPickleWriter.t) k v :
  PandasPickleWriter._get_saving_kwargs self !! k = Some v →
  (k, v) ∈ PandasPickleWriter.optional_fields self.
Proof.
  unfold PandasPickleWriter._get_saving_kwargs, PandasPickleWriter.optional_fields.
  intros H. entry_cases H. by rewrite lookup_empty in H.
Qed.

Lemma json_loading_entry (self : PandasJsonReader.t) k v :
  PandasJsonReader._get_loading_kwargs self !! k = Some v →
  (k, v) ∈ PandasJsonReader.optional_fields self.
Proof.
  unfold PandasJsonReader._get_loading_kwargs, PandasJsonReader.optional_fields.
  intros H. entry_cases H. by rewrite lookup_empty in H.
Qed.

Lemma json_saving_entry (self : PandasJsonWriter.t) k v :
  PandasJsonWriter._get_saving_kwargs self !! k = Some v →
  (k, v) ∈ PandasJsonWriter.optional_fields self.
Proof.
  unfold PandasJsonWriter._get_saving_kwargs, PandasJsonWriter.optional_fields.
  intros H. entry_cases H. by rewrite lookup_empty in H.
Qed.

(** X1. Whatever keyword reaches pandas is a declared field of the adapter
    carrying that field's value unchanged; the one keyword the adapters add
    on their own is the CSV adapter's [index=False]. *)
Theorem passed_kwargs_come_from_fields (a : adapter) (type_ : pytype)
    (data : DataFrame) (w : World) (kw : Kwargs) (k : string) (v : pyval) :
  kw ∈ (load_call_kwargs a type_ w ++ save_call_kwargs a data w)%list →
  kw !! k = Some v →
  (k, v) ∈ optional_fields a ∨
  (class_of a = CSVDataAdapter_cls ∧ k = "index" ∧ v = VBool false).
Proof.
  rewrite load_call_kwargs_eq, save_call_kwargs_eq.
  destruct a as [self|self|self|self|self|self|self]; simpl;
    rewrite ?elem_of_cons, ?elem_of_nil; intros Hin Hk.
  - destruct Hin as [->|[->|[]]].
    + apply csv_loading_entry in Hk as [?|[? ?]]; [by left|by right].
    + apply csv_saving_entry in Hk as [?|[? ?]]; [by left|by right].
  - destruct Hin as [->|[->|[]]]; by rewrite lookup_empty in Hk.
  - destruct Hin as [->|[->|[]]]; by rewrite lookup_empty in Hk.
  - destruct Hin as [->|[]]. left. by apply pickle_loading_entry.
  - destruct Hin as [->|[]]. left. by apply pickle_saving_entry.
  - destruct Hin as [->|[]]. left. by apply json_loading_entry.
  - destruct Hin as [->|[]]. left. by apply json_saving_entry.
Qed.
End Entries.

Lemma passed_kwargs_come_from_fields_witness :
  let C := InMemory.collaborators InMemory.python_3_11 in
  let a := CSV (CSVDataAdapter.new_ "frame.csv" (VStr ";")) in
  let kw : Kwargs := <["sep" := VStr ";"]> {["index" := VBool false]} in
  kw ∈ (load_call_kwargs a PandasDataFrame (∅ : InMemory.files)
        ++ save_call_kwargs a InMemory.frame ∅)%list ∧
  kw !! "sep" = Some (VStr ";") ∧
  (("sep", VStr ";") ∈ optional_fields a ∨
   (class_of a = CSVDataAdapter_cls ∧ "sep" = "index" ∧ VStr ";" = VBool false)).
Proof.
  intros C a kw.
  assert (H1 : kw ∈ (load_call_kwargs a PandasDataFrame (∅ : InMemory.files)
                     ++ save_call_kwargs a InMemory.frame ∅)%list)
    by (vm_compute; in_fields).
  assert (H2 : kw !! "sep" = Some (VStr ";")) by reflexivity.
  exact (conj H1 (conj H2
    (passed_kwargs_come_from_fields a PandasDataFrame InMemory.frame ∅ kw
       "sep" (VStr ";") H1 H2))).
Defined.

(** ** Fields that are set are passed *)

(** Finds the guarded assignment of the key at hand under the later ones. *)
Ltac find_assignment :=
  cbv zeta;
  rewrite ?lookup_assign_if_ne by done;
  apply lookup_assign_if_eq.

Section SetFields.
Context {World : Type} `{!Collaborators World}.

Lemma csv_loading_passes (self : CSVDataAdapter.t) k v :
  (k, v) ∈ CSVDataAdapter.optional_fields self → v ≠ VNone →
  CSVDataAdapter._get_loading_kwargs self !! k = Some v.
Proof.
  intros H Hv. unfold CSVDataAdapter.optional_fields in H. field_cases H.
  all: subst v; unfold CSVDataAdapter._get_loading_kwargs; find_assignment;
    by apply is_not_None_true.
Qed.

Lemma csv_saving_passes (self : CSVDataAdapter.t) k v :
  (k, v) ∈ CSVDataAdapter.optional_fields self → v ≠ VNone →
  CSVDataAdapter._get_saving_kwargs self !! k = Some v.
Proof.
  intros H Hv. unfold CSVDataAdapter.optional_fields in H. field_cases H.
  all: subst v; unfold CSVDataAdapter._get_saving_kwargs; find_assignment;
    by apply is_not_None_true.
Qed.

Lemma pickle_loading_passes (self : PandasPickleReader.t) k v :
  (k, v) ∈ PandasPickleReader.optional_fields self → v ≠ VNone →
  PandasPickleReader._get_loading_kwargs self !! k = Some v.
Proof.
  intros H Hv. unfold PandasPickleReader.optional_fields in H. field_cases H.
  all: subst v; unfold PandasPickleReader._get_loading_kwargs; find_assignment;
    by apply is_not_None_true.
Qed.

Lemma pickle_saving_passes (self : PandasPickleWriter.t) k v :
  (k, v) ∈ PandasPickleWriter.optional_fields self → v ≠ VNone →
  PandasPickleWriter._get_saving_kwargs self !! k = Some v.
Proof.
  intros H Hv. unfold PandasPickleWriter.optional_fields in H. field_cases H.
  all: subst v; unfold PandasPickleWriter._get_saving_kwargs; find_assignment;
    by apply is_not_None_true.
Qed.

Lemma json_loading_passes (self : PandasJsonReader.t) k v :
  (k, v) ∈ PandasJsonReader.optional_fields self → v ≠ VNone →
  (k = "engine" → tuple_ge (as_tuple version_info) [3; 8] = true) →
  PandasJsonReader._get_loading_kwargs self !! k = Some v.
Proof.
  intros H Hv Hgate. unfold PandasJsonReader.optional_fields in H. field_cases H.
  all: subst v; unfold PandasJsonReader._get_loading_kwargs; find_assignment.
  all: try by apply is_not_None_true.
  rewrite Hgate by done. by apply is_not_None_true.
Qed.

Lemma json_saving_passes (self : PandasJsonWriter.t) k v :
  (k, v) ∈ PandasJsonWriter.optional_fields self → v ≠ VNone →
  (k = "mode" → tuple_ge (as_tuple version_info) [3; 8] = true) →
  (k = "lines" → v ≠ VBool false) →
  PandasJsonWriter._get_saving_kwargs self !! k = Some v.
Proof.
  intros H Hv Hgate Hlines. unfold PandasJsonWriter.optional_fields in H.
  field_cases H.
  all: subst v; unfold PandasJsonWriter._get_saving_kwargs; find_assignment.
  all: try by apply is_not_None_true.
  - by apply is_not_False_true, Hlines.
  - rewrite Hgate by done. by apply is_not_None_true.
Qed.

(** X2. A field that holds anything but [None] reaches the pandas call under
    its own name and with its own value: the one call a loader's [load_data]
    makes and the one call a saver's [save_data] makes both carry it.  Three
    fields have a further condition: the JSON reader's [engine] and the JSON
    writer's [mode] need Python 3.8 or later, and the JSON writer's [lines]
    must not be [False]. *)
Theorem set_fields_are_passed (a : adapter) (type_ : pytype) (data : DataFrame)
    (w : World) (k : string) (v : pyval) :
  (k, v) ∈ optional_fields a →
  v ≠ VNone →
  ((class_of a, k) = (PandasJsonReader_cls, "engine") ∨
   (class_of a, k) = (PandasJsonWriter_cls, "mode") →
   tuple_ge (as_tuple version_info) [3; 8] = true) →
  ((class_of a, k) = (PandasJsonWriter_cls, "lines") → v ≠ VBool false) →
  (issubclass (class_of a) DataLoader = true →
   ∃ kw, load_call_kwargs a type_ w = [kw] ∧ kw !! k = Some v) ∧
  (issubclass (class_of a) DataSaver = true →
   ∃ kw, save_call_kwargs a data w = [kw] ∧ kw !! k = Some v) ∧
  (issubclass (class_of a) DataLoader = true ∨
   issubclass (class_of a) DataSaver = true).
Proof.
  intros Hk Hv Hgate Hlines.
  rewrite load_call_kwargs_eq, save_call_kwargs_eq.
  assert (Hcap : issubclass (class_of a) DataLoader = true ∨
                 issubclass (class_of a) DataSaver = true)
    by (destruct a; first [by left | by right]).
  split; [|split; [|exact Hcap]]; intros Hb.
  - destruct a as [self|self|self|self|self|self|self]; try discriminate Hb;
      simpl in Hk; try (by apply elem_of_nil in Hk);
      (eexists; split; [reflexivity|]).
    + by apply csv_loading_passes.
    + by apply pickle_loading_passes.
    + apply json_loading_passes; [done|done|]. intros ->. apply Hgate. by left.
  - destruct a as [self|self|self|self|self|self|self]; try discriminate Hb;
      simpl in Hk; try (by apply elem_of_nil in Hk);
      (eexists; split; [reflexivity|]).
    + by apply csv_saving_passes.
    + by apply pickle_saving_passes.
    + apply json_saving_passes; [done|done| |].
      * intros ->. apply Hgate. by right.
      * intros ->. by apply Hlines.
Qed.
End SetFields.

Lemma set_fields_are_passed_witness :
  let C := InMemory.collaborators InMemory.python_3_11 in
  let a := JsonWriter (PandasJsonWriter.new (SrcStr "frame.json")) in
  ("mode", VStr "w") ∈ optional_fields a ∧
  VStr "w" ≠ VNone ∧
  tuple_ge (as_tuple version_info) [3; 8] = true ∧
  issubclass (class_of a) DataSaver = true ∧
  ∃ kw, save_call_kwargs a InMemory.frame (∅ : InMemory.files) = [kw] ∧
        kw !! "mode" = Some (VStr "w").
Proof.
  intros C a.
  assert (H1 : ("mode", VStr "w") ∈ optional_fields a) by (vm_compute; in_fields).
  assert (H2 : VStr "w" ≠ VNone) by discriminate.
  assert (H3 : tuple_ge (as_tuple version_info) [3; 8] = true) by reflexivity.
  assert (H4 : issubclass (class_of a) DataSaver = true) by reflexivity.
  refine (conj H1 (conj H2 (conj H3 (conj H4
    (proj1 (proj2
       (set_fields_are_passed a PandasDataFrame InMemory.frame ∅ "mode" (VStr "w")
          H1 H2 (λ _, H3) _)) H4))))).
  intros [=].
Defined.

(** ** Fields are passed exactly when they are set *)

Lemma is_not_None_false (v : pyval) : is_not_None v = false → v = VNone.
Proof. by destruct v. Qed.

Section PassedIffSet.
Context {World : Type} `{!Collaborators World}.

Lemma json_loading_engine_gated (self : PandasJsonReader.t) :
  tuple_ge (as_tuple version_info) [3; 8] = false →
  PandasJsonReader._get_loading_kwargs self !! "engine" = None.
Proof.
  intros Hge. unfold PandasJsonReader._get_loading_kwargs. cbv zeta.
  rewrite !lookup_assign_if_ne by done. rewrite Hge. simpl.
  rewrite !lookup_assign_if_ne by done. apply lookup_empty.
Qed.

Lemma json_saving_mode_gated (self : PandasJsonWriter.t) :
  tuple_ge (as_tuple version_info) [3; 8] = false →
  PandasJsonWriter._get_saving_kwargs self !! "mode" = None.
Proof.
  intros Hge. unfold PandasJsonWriter._get_saving_kwargs. cbv zeta.
  rewrite !lookup_assign_if_ne by done. rewrite Hge. simpl.
  rewrite !lookup_assign_if_ne by done. apply lookup_empty.
Qed.

Lemma csv_loading_lookup (self : CSVDataAdapter.t) k v :
  (k, v) ∈ CSVDataAdapter.optional_fields self →
  CSVDataAdapter._get_loading_kwargs self !! k
  = if field_is_passed CSVDataAdapter_cls k v then Some v else None.
Proof.
  intros H. unfold field_is_passed; simpl. rewrite andb_true_r.
  destruct (is_not_None v) eqn:Hv.
  - apply csv_loading_passes; [done|]. by intros ->.
  - apply is_not_None_false in Hv as ->. by apply csv_loading_omits_None.
Qed.

Lemma csv_saving_lookup (self : CSVDataAdapter.t) k v :
  (k, v) ∈ CSVDataAdapter.optional_fields self →
  CSVDataAdapter._get_saving_kwargs self !! k
  = if field_is_passed CSVDataAdapter_cls k v then Some v else None.
Proof.
  intros H. unfold field_is_passed; simpl. rewrite andb_true_r.
  destruct (is_not_None v) eqn:Hv.
  - apply csv_saving_passes; [done|]. by intros ->.
  - apply is_not_None_false in Hv as ->. by apply csv_saving_omits_None.
Qed.

Lemma pickle_loading_lookup (self : PandasPickleReader.t) k v :
  (k, v) ∈ PandasPickleReader.optional_fields self →
  PandasPickleReader._get_loading_kwargs self !! k
  = if field_is_passed PandasPickleReader_cls k v then Some v else None.
Proof.
  intros H. unfold field_is_passed; simpl. rewrite andb_true_r.
  destruct (is_not_None v) eqn:Hv.
  - apply pickle_loading_passes; [done|]. by intros ->.
  - apply is_not_None_false in Hv as ->. by apply pickle_loading_omits_None.
Qed.

Lemma pickle_saving_lookup (self : PandasPickleWriter.t) k v :
  (k, v) ∈ PandasPickleWriter.optional_fields self →
  PandasPickleWriter._get_saving_kwargs self !! k
  = if field_is_passed PandasPickleWriter_cls k v then Some v else None.
Proof.
  intros H. unfold field_is_passed; simpl. rewrite andb_true_r.
  destruct (is_not_None v) eqn:Hv.
  - apply pickle_saving_passes; [done|]. by intros ->.
  - apply is_not_None_false in Hv as ->. by apply pickle_saving_omits_None.
Qed.

Lemma json_loading_lookup (self : PandasJsonReader.t) k v :
  (k, v) ∈ PandasJsonReader.optional_fields self →
  PandasJsonReader._get_loading_kwargs self !! k
  = if field_is_passed PandasJsonReader_cls k v then Some v else None.
Proof.
  intros H. unfold field_is_passed; simpl.
  destruct (is_not_None v) eqn:Hv; simpl.
  - assert (Hne : v ≠ VNone) by (by intros ->).
    case_bool_decide as Hk.
    + destruct (tuple_ge (as_tuple version_info) [3; 8]) eqn:Hge.
      * by apply json_loading_passes.
      * subst k. by apply json_loading_engine_gated.
    + by apply json_loading_passes.
  - apply is_not_None_false in Hv as ->. by apply json_loading_omits_None.
Qed.

Lemma json_saving_lookup (self : PandasJsonWriter.t) k v :
  (k, v) ∈ PandasJsonWriter.optional_fields self →
  k ≠ "lines" →
  PandasJsonWriter._get_saving_kwargs self !! k
  = if field_is_passed PandasJsonWriter_cls k v then Some v else None.
Proof.
  intros H Hlines. unfold field_is_passed; simpl.
  destruct (is_not_None v) eqn:Hv; simpl.
  - assert (Hne : v ≠ VNone) by (by intros ->).
    case_bool_decide as Hk.
    + destruct (tuple_ge (as_tuple version_info) [3; 8]) eqn:Hge.
      * by apply json_saving_passes.
      * subst k. by apply json_saving_mode_gated.
    + by apply json_saving_passes.
  - apply is_not_None_false in Hv as ->. by apply json_saving_omits_None.
Qed.

(** C1 (as amended). For every adapter in the catalogue, [load_data] and
    [save_data] make one pandas call, and its keyword arguments hold an
    entry for an optional field exactly when the field's value is not
    [None] (and, for the JSON reader's [engine] and the JSON writer's
    [mode], the interpreter is Python 3.8 or later); the entry is the
    field's value.  So a field left at a declared default of [None] is not
    passed, and a field left at a declared default that is not [None] is
    passed with that default.  (The JSON writer's [lines], which is guarded
    by [is not False], is left aside.) *)
Theorem fields_are_passed_unless_None (a : adapter) (type_ : pytype)
    (data : DataFrame) (w : World) :
  (issubclass (class_of a) DataLoader = true →
   ∃ kw, load_call_kwargs a type_ w = [kw] ∧
     ∀ k v, (k, v) ∈ optional_fields a →
       (class_of a, k) ≠ (PandasJsonWriter_cls, "lines") →
       kw !! k = if field_is_passed (class_of a) k v then Some v else None) ∧
  (issubclass (class_of a) DataSaver = true →
   ∃ kw, save_call_kwargs a data w = [kw] ∧
     ∀ k v, (k, v) ∈ optional_fields a →
       (class_of a, k) ≠ (PandasJsonWriter_cls, "lines") →
       kw !! k = if field_is_passed (class_of a) k v then Some v else None).
Proof.
  rewrite load_call_kwargs_eq, save_call_kwargs_eq. split; intros Hb.
  - destruct a as [self|self|self|self|self|self|self]; try discriminate Hb;
      (eexists; split; [reflexivity|]); intros k v Hk Hlines; simpl in Hk.
    + by apply csv_loading_lookup.
    + by apply elem_of_nil in Hk.
    + by apply elem_of_nil in Hk.
    + by apply pickle_loading_lookup.
    + by apply json_loading_lookup.
  - destruct a as [self|self|self|self|self|self|self]; try discriminate Hb;
      (eexists; split; [reflexivity|]); intros k v Hk Hlines; simpl in Hk.
    + by apply csv_saving_lookup.
    + by apply elem_of_nil in Hk.
    + by apply elem_of_nil in Hk.
    + by apply pickle_saving_lookup.
    + apply json_saving_lookup; [done|]. by intros ->.
Qed.
End PassedIffSet.

Lemma fields_are_passed_unless_None_witness :
  let C := InMemory.collaborators InMemory.python_3_7 in
  let a := JsonReader (PandasJsonReader.new (SrcStr "frame.json")) in
  issubclass (class_of a) DataLoader = true ∧
  ("orient", VNone) ∈ optional_fields a ∧
  ("compression", VStr "infer") ∈ optional_fields a ∧
  ("engine", VStr "ujson") ∈ optional_fields a ∧
  ∃ kw, load_call_kwargs a PandasDataFrame (∅ : InMemory.files) = [kw] ∧
        kw !! "orient" = None ∧
        kw !! "compression" = Some (VStr "infer") ∧
        kw !! "engine" = None.
Proof.
  intros C a.
  assert (Hb : issubclass (class_of a) DataLoader = true) by reflexivity.
  assert (H1 : ("orient", VNone) ∈ optional_fields a) by (vm_compute; in_fields).
  assert (H2 : ("compression", VStr "infer") ∈ optional_fields a)
    by (vm_compute; in_fields).
  assert (H3 : ("engine", VStr "ujson") ∈ optional_fields a)
    by (vm_compute; in_fields).
  split; [exact Hb|]. split; [exact H1|]. split; [exact H2|]. split; [exact H3|].
  destruct (proj1 (fields_are_passed_unless_None a PandasDataFrame InMemory.frame ∅) Hb)
    as (kw & Hkw & Hfields).
  exists kw. split; [exact Hkw|].
  split; [exact (Hfields "orient" VNone H1 ltac:(discriminate))|].
  split; [exact (Hfields "compression" (VStr "infer") H2 ltac:(discriminate))|].
  exact (Hfields "engine" (VStr "ujson") H3 ltac:(discriminate)).
Defined.

(** ** Version-gated and specially guarded keywords *)

(** X3. Before Python 3.8 the JSON reader never passes [engine] and the JSON
    writer never passes [mode], whatever the caller put in those fields. *)
Theorem engine_and_mode_need_python_3_8 {World : Type} `{!Collaborators World}
    (reader : PandasJsonReader.t) (writer : PandasJsonWriter.t) :
  tuple_lt (as_tuple version_info) [3; 8] = true →
  PandasJsonReader._get_loading_kwargs reader !! "engine" = None ∧
  PandasJsonWriter._get_saving_kwargs writer !! "mode" = None.
Proof.
  intros Hlt.
  assert (Hge : tuple_ge (as_tuple version_info) [3; 8] = false)
    by (unfold tuple_ge; by rewrite Hlt).
  split.
  - unfold PandasJsonReader._get_loading_kwargs. cbv zeta.
    rewrite !lookup_assign_if_ne by done. rewrite Hge. simpl.
    rewrite !lookup_assign_if_ne by done. apply lookup_empty.
  - unfold PandasJsonWriter._get_saving_kwargs. cbv zeta.
    rewrite !lookup_assign_if_ne by done. rewrite Hge. simpl.
    rewrite !lookup_assign_if_ne by done. apply lookup_empty.
Qed.

Lemma engine_and_mode_need_python_3_8_witness :
  let C := InMemory.collaborators InMemory.python_3_7 in
  let reader := PandasJsonReader.new (SrcStr "frame.json") in
  let writer := PandasJsonWriter.new (SrcStr "frame.json") in
  tuple_lt (as_tuple version_info) [3; 8] = true ∧
  PandasJsonReader.engine reader = VStr "ujson" ∧
  PandasJsonWriter.mode writer = VStr "w" ∧
  PandasJsonReader._get_loading_kwargs reader !! "engine" = None ∧
  PandasJsonWriter._get_saving_kwargs writer !! "mode" = None.
Proof.
  intros C reader writer.
  assert (H : tuple_lt (as_tuple version_info) [3; 8] = true) by reflexivity.
  exact (conj H (conj eq_refl (conj eq_refl
    (engine_and_mode_need_python_3_8 reader writer H)))).
Defined.

(** X4. The JSON writer's [lines] is the one keyword compared against
    [False] instead of [None]: it is passed exactly when it is not [False],
    so [lines=False] is left out while [lines=None] reaches [to_json] as
    [None]. *)
Theorem json_writer_lines_passed_unless_False {World : Type}
    `{!Collaborators World} (self : PandasJsonWriter.t) :
  PandasJsonWriter._get_saving_kwargs self !! "lines" =
    (if is_not_False (PandasJsonWriter.lines self)
     then Some (PandasJsonWriter.lines self) else None) ∧
  (PandasJsonWriter.lines self = VBool false ↔
   PandasJsonWriter._get_saving_kwargs self !! "lines" = None) ∧
  (PandasJsonWriter.lines self = VNone →
   PandasJsonWriter._get_saving_kwargs self !! "lines" = Some VNone).
Proof.
  assert (E : PandasJsonWriter._get_saving_kwargs self !! "lines" =
    (if is_not_False (PandasJsonWriter.lines self)
     then Some (PandasJsonWriter.lines self) else None)).
  { unfold PandasJsonWriter._get_saving_kwargs. cbv zeta.
    rewrite !lookup_assign_if_ne by done.
    destruct (is_not_False (PandasJsonWriter.lines self)) eqn:E.
    - by apply lookup_assign_if_eq.
    - unfold assign_if at 1.
      rewrite !lookup_assign_if_ne by done. apply lookup_empty. }
  split; [exact E|]. rewrite E. split.
  - split.
    + by intros ->.
    + destruct (PandasJsonWriter.lines self) as [|[]| | | | |]; simpl; congruence.
  - by intros ->.
Qed.

Lemma json_writer_lines_passed_unless_False_witness :
  let C := InMemory.collaborators InMemory.python_3_11 in
  let self :=
    PandasJsonWriter.new_ (SrcStr "frame.json") (VStr "infer") (VStr "epoch")
      (VStr "ms") VNone (VInt 10) (VBool true) VNone (VInt 0) VNone (VStr "w")
      VNone VNone in
  PandasJsonWriter.lines self = VNone ∧
  PandasJsonWriter._get_saving_kwargs self !! "lines" = Some VNone.
Proof.
  intros C self.
  exact (conj eq_refl
    (proj2 (proj2 (json_writer_lines_passed_unless_False self)) eq_refl)).
Defined.

(** X5. The CSV adapter saves with the keyword arguments it loads with,
    plus [index=False]: the separator handed to [to_csv] is the one handed
    to [read_csv]. *)
Theorem csv_saving_kwargs_extend_loading_kwargs (self : CSVDataAdapter.t) :
  CSVDataAdapter._get_saving_kwargs self
    = <["index" := VBool false]> (CSVDataAdapter._get_loading_kwargs self) ∧
  delete "index" (CSVDataAdapter._get_saving_kwargs self)
    = CSVDataAdapter._get_loading_kwargs self ∧
  CSVDataAdapter._get_saving_kwargs self !! "sep"
    = CSVDataAdapter._get_loading_kwargs self !! "sep".
Proof.
  assert (E : CSVDataAdapter._get_saving_kwargs self
    = <["index" := VBool false]> (CSVDataAdapter._get_loading_kwargs self)).
  { unfold CSVDataAdapter._get_saving_kwargs, CSVDataAdapter._get_loading_kwargs,
      assign_if.
    destruct (is_not_None (CSVDataAdapter.sep self)).
    - rewrite <- insert_empty. by apply insert_insert_ne.
    - by rewrite insert_empty. }
  split; [exact E|]. rewrite E. split.
  - apply delete_insert_id.
    unfold CSVDataAdapter._get_loading_kwargs. cbv zeta.
    by rewrite lookup_assign_if_ne, lookup_empty.
  - by rewrite lookup_insert_ne.
Qed.

(** ** How a save or a load can end *)

Section Failures.
Context {World : Type} `{!Collaborators World}.

(** X6. [save_data] passes errors on untouched.  When it raises, either the
    class has no [save_data], or pandas raised that very exception while
    writing (the extractor is then never called and the world is as pandas
    left it on failure, i.e. as it was), or the write went through and the
    extractor raised that very exception (the write is not undone). *)
Theorem save_data_propagates_errors (a : adapter) (data : DataFrame) (w : World)
    (e : exn) (s : state World) :
  run (save_data a data) w = Raises e s →
  (issubclass (class_of a) DataSaver = false ∧
   e = AttributeError "save_data" ∧ s = mkState w []) ∨
  (∃ fn kw,
     pandas_write fn data (location a) kw w = inl e ∧
     s = mkState w [PandasWrite fn data (location a) kw]) ∨
  (∃ fn kw w',
     pandas_write fn data (location a) kw w = inr w' ∧
     get_file_metadata (location a) w' = inl e ∧
     s = mkState w' [PandasWrite fn data (location a) kw;
                     GetFileMetadata (location a)]).
Proof.
  destruct (save_data_run a data w) as [[_ (fn & kw & _ & ->)]|[Hb ->]].
  - rewrite write_then_metadata.
    destruct (pandas_write fn data (location a) kw w) as [e'|w'] eqn:Hw.
    + intros [= <- <-]. right; left. by eauto.
    + simpl. destruct (get_file_metadata (location a) w') as [e'|md] eqn:Hmd; [|done].
      intros [= <- <-]. right; right. by eauto 10.
  - intros [= <- <-]. by left.
Qed.

(** X7. [load_data] passes errors on untouched, in the same way: a missing
    method, or the exception pandas raised while reading (nothing else is
    called), or the exception the extractor raised after a successful
    read. *)
Theorem load_data_propagates_errors (a : adapter) (type_ : pytype) (w : World)
    (e : exn) (s : state World) :
  run (load_data a type_) w = Raises e s →
  (issubclass (class_of a) DataLoader = false ∧
   e = AttributeError "load_data" ∧ s = mkState w []) ∨
  (∃ fn kw,
     pandas_read fn (location a) kw w = inl e ∧
     s = mkState w [PandasRead fn (location a) kw]) ∨
  (∃ fn kw df w',
     pandas_read fn (location a) kw w = inr (df, w') ∧
     get_file_metadata (location a) w' = inl e ∧
     s = mkState w' [PandasRead fn (location a) kw;
                     GetFileMetadata (location a)]).
Proof.
  destruct (load_data_run a type_ w)
    as [[_ (fn & kw & _ & [->|(self & -> & Hs & ->)])]|[Hb ->]].
  - rewrite read_then_metadata.
    destruct (pandas_read fn (location a) kw w) as [e'|[df w']] eqn:Hr.
    + intros [= <- <-]. right; left. by eauto.
    + simpl. destruct (get_file_metadata (location a) w') as [e'|md] eqn:Hmd; [|done].
      intros [= <- <-]. right; right. by eauto 10.
  - destruct (pandas_read fn _ kw w) as [e'|[df w']] eqn:Hr; [|done].
    intros [= <- <-]. right; left. by eauto.
  - intros [= <- <-]. by left.
Qed.
End Failures.

Lemma save_data_propagates_errors_witness :
  let C := InMemory.collaborators InMemory.python_3_11 in
  let a := PickleWriter (PandasPickleWriter.new (SrcBytesIO 1)) in
  let e := LibraryError "TypeError" in
  let s := mkState (∅ : InMemory.files)
             [PandasWrite to_pickle InMemory.frame (SrcBytesIO 1)
                (PandasPickleWriter._get_saving_kwargs
                   (PandasPickleWriter.new (SrcBytesIO 1)))] in
  run (save_data a InMemory.frame) ∅ = Raises e s ∧
  ((issubclass (class_of a) DataSaver = false ∧
    e = AttributeError "save_data" ∧ s = mkState ∅ []) ∨
   (∃ fn kw,
      pandas_write fn InMemory.frame (location a) kw ∅ = inl e ∧
      s = mkState ∅ [PandasWrite fn InMemory.frame (location a) kw]) ∨
   (∃ fn kw w',
      pandas_write fn InMemory.frame (location a) kw ∅ = inr w' ∧
      get_file_metadata (location a) w' = inl e ∧
      s = mkState w' [PandasWrite fn InMemory.frame (location a) kw;
                      GetFileMetadata (location a)])).
Proof.
  intros C a e s.
  assert (H : run (save_data a InMemory.frame) ∅ = Raises e s) by reflexivity.
  exact (conj H (save_data_propagates_errors a InMemory.frame ∅ e s H)).
Defined.

Lemma load_data_propagates_errors_witness :
  let C := InMemory.collaborators InMemory.python_3_11 in
  let a := Parquet (ParquetDataLoader.new "missing.parquet") in
  let e := LibraryError "FileNotFoundError" in
  let s := mkState (∅ : InMemory.files)
             [PandasRead read_parquet (SrcStr "missing.parquet") ∅] in
  run (load_data a PandasDataFrame) ∅ = Raises e s ∧
  ((issubclass (class_of a) DataLoader = false ∧
    e = AttributeError "load_data" ∧ s = mkState ∅ []) ∨
   (∃ fn kw,
      pandas_read fn (location a) kw ∅ = inl e ∧
      s = mkState ∅ [PandasRead fn (location a) kw]) ∨
   (∃ fn kw df w',
      pandas_read fn (location a) kw ∅ = inr (df, w') ∧
      get_file_metadata (location a) w' = inl e ∧
      s = mkState w' [PandasRead fn (location a) kw;
                      GetFileMetadata (location a)])).
Proof.
  intros C a e s.
  assert (H : run (load_data a PandasDataFrame) ∅ = Raises e s) by reflexivity.
  exact (conj H (load_data_propagates_errors a PandasDataFrame ∅ e s H)).
Defined.

(** ** What a save or a load touches *)

Section Touches.
Context {World : Type} `{!Collaborators World}.

(** X8. An adapter reaches pandas on [save_data] exactly when its class
    derives from [DataSaver], and on [load_data] exactly when it derives
    from [DataLoader]; a class without the capability raises
    [AttributeError] before anything is called.  Every class has at least
    one of the two capabilities. *)
Theorem methods_match_capabilities (a : adapter) (type_ : pytype)
    (data : DataFrame) (w : World) :
  (issubclass (class_of a) DataSaver = true ↔
   save_call_kwargs a data w ≠ []) ∧
  (issubclass (class_of a) DataLoader = true ↔
   load_call_kwargs a type_ w ≠ []) ∧
  (issubclass (class_of a) DataSaver = false →
   run (save_data a data) w = Raises (AttributeError "save_data") (mkState w [])) ∧
  (issubclass (class_of a) DataLoader = false →
   run (load_data a type_) w = Raises (AttributeError "load_data") (mkState w [])) ∧
  (issubclass (class_of a) DataSaver = true ∨
   issubclass (class_of a) DataLoader = true).
Proof.
  rewrite load_call_kwargs_eq, save_call_kwargs_eq.
  destruct a as [self|self|self|self|self|self|self];
    repeat split; try done; try (by left); try (by right).
Qed.

(** X9. A save only ever writes the frame it was given, at the configured
    location, and asks the extractor about that location; it never reads.
    A load only ever reads at the configured location and asks the
    extractor about it; it never writes.  Neither makes more than one pandas
    call or more than one extractor call. *)
Theorem calls_stay_at_the_configured_location (a : adapter) (type_ : pytype)
    (data : DataFrame) (w : World) :
  Forall (save_event_ok a data) (calls (final_state (run (save_data a data) w))) ∧
  Forall (load_event_ok a) (calls (final_state (run (load_data a type_) w))) ∧
  (length (save_call_kwargs a data w) ≤ 1)%nat ∧
  (length (load_call_kwargs a type_ w) ≤ 1)%nat ∧
  (length (calls (final_state (run (save_data a data) w))) ≤ 2)%nat ∧
  (length (calls (final_state (run (load_data a type_) w))) ≤ 2)%nat.
Proof.
  assert (Hs : Forall (save_event_ok a data)
                 (calls (final_state (run (save_data a data) w))) ∧
               (length (calls (final_state (run (save_data a data) w))) ≤ 2)%nat).
  { destruct (save_data_run a data w) as [[_ (fn & kw & _ & ->)]|[_ ->]].
    - rewrite write_then_metadata.
      destruct (pandas_write fn data (location a) kw w) as [e|w'];
        [simpl; split; [by repeat constructor|lia]|].
      simpl. destruct (get_file_metadata (location a) w');
        simpl; (split; [by repeat constructor|lia]).
    - simpl. split; [constructor|lia]. }
  assert (Hl : Forall (load_event_ok a)
                 (calls (final_state (run (load_data a type_) w))) ∧
               (length (calls (final_state (run (load_data a type_) w))) ≤ 2)%nat).
  { destruct (load_data_run a type_ w)
      as [[_ (fn & kw & _ & [->|(self & -> & _ & ->)])]|[_ ->]].
    - rewrite read_then_metadata.
      destruct (pandas_read fn (location a) kw w) as [e|[df w']];
        [simpl; split; [by repeat constructor|lia]|].
      simpl. destruct (get_file_metadata (location a) w');
        simpl; (split; [by repeat constructor|lia]).
    - destruct (pandas_read fn _ kw w) as [e|[df w']];
        simpl; (split; [by repeat constructor|lia]).
    - simpl. split; [constructor|lia]. }
  destruct Hs as [Hs1 Hs2], Hl as [Hl1 Hl2].
  split; [done|]. split; [done|].
  rewrite load_call_kwargs_eq, save_call_kwargs_eq.
  repeat split; try done; destruct a; simpl; lia.
Qed.

Lemma startswith_cons a p b t :
  startswith (String a p) (String b t)
  = (if Ascii.eqb a b then startswith p t else false).
Proof. reflexivity. Qed.

Lemma startswith_app (p s : string) : startswith p (p +:+ s) = true.
Proof.
  induction p as [|a p IH]; [by destruct s|].
  change (String a p +:+ s) with (String a (p +:+ s)).
  by rewrite startswith_cons, Ascii.eqb_refl.
Qed.

(** X10. Loading CSV from an [https://] URL never consults the metadata
    extractor: the outcome is decided by [read_csv] alone, and on success the
    metadata is the mapping holding the path.  Saving through the same
    adapter has no such guard and does consult the extractor once the write
    went through. *)
Theorem csv_load_over_https_skips_extractor (self : CSVDataAdapter.t)
    (rest : string) (type_ : pytype) (data : DataFrame) (w : World) :
  CSVDataAdapter.path self = "https://" +:+ rest →
  let loc := SrcStr (CSVDataAdapter.path self) in
  run (load_data (CSV self) type_) w =
    match pandas_read read_csv loc (CSVDataAdapter._get_loading_kwargs self) w with
    | inl e =>
        Raises e (mkState w
          [PandasRead read_csv loc (CSVDataAdapter._get_loading_kwargs self)])
    | inr (df, w') =>
        Returns (df, {["path" := VStr (CSVDataAdapter.path self)]})
          (mkState w'
             [PandasRead read_csv loc (CSVDataAdapter._get_loading_kwargs self)])
    end ∧
  (GetFileMetadata loc ∉ calls (final_state (run (load_data (CSV self) type_) w))) ∧
  (∀ w', pandas_write to_csv data loc (CSVDataAdapter._get_saving_kwargs self) w
           = inr w' →
         GetFileMetadata loc ∈ calls (final_state (run (save_data (CSV self) data) w))).
Proof.
  intros Hpath loc.
  assert (Hs : startswith "https://" (CSVDataAdapter.path self) = true)
    by (rewrite Hpath; apply startswith_app).
  assert (E : run (load_data (CSV self) type_) w =
    match pandas_read read_csv loc (CSVDataAdapter._get_loading_kwargs self) w with
    | inl e =>
        Raises e (mkState w
          [PandasRead read_csv loc (CSVDataAdapter._get_loading_kwargs self)])
    | inr (df, w') =>
        Returns (df, {["path" := VStr (CSVDataAdapter.path self)]})
          (mkState w'
             [PandasRead read_csv loc (CSVDataAdapter._get_loading_kwargs self)])
    end).
  { simpl. rewrite csv_load_data_run; simpl. fold loc.
    destruct (pandas_read read_csv loc _ w) as [e|[df w']]; [done|]. by rewrite Hs. }
  split; [exact E|]. split.
  - rewrite E.
    destruct (pandas_read read_csv loc _ w) as [e|[df w']]; simpl;
      intros Hin; apply list_elem_of_singleton in Hin; discriminate.
  - intros w' Hw. simpl. unfold CSVDataAdapter.save_data.
    rewrite write_then_metadata. fold loc. rewrite Hw. simpl.
    destruct (get_file_metadata loc w'); simpl; in_fields.
Qed.

(** X11. Each adapter calls the pandas routine of the format it is
    registered under: the writer is [to_<name>] and the reader is
    [read_<name>], where [<name>] is the class's [name()]. *)
Theorem pandas_routine_matches_format_name (a : adapter) (type_ : pytype)
    (data : DataFrame) (w : World) (ev : event) :
  ev ∈ (calls (final_state (run (save_data a data) w))
        ++ calls (final_state (run (load_data a type_) w)))%list →
  match ev with
  | PandasWrite fn _ _ _ => pd_writer_name fn = "to_" +:+ name (class_of a)
  | PandasRead fn _ _ => pd_reader_name fn = "read_" +:+ name (class_of a)
  | GetFileMetadata _ => True
  end.
Proof.
  rewrite elem_of_app. intros [Hin|Hin].
  - destruct (save_data_run a data w) as [[_ (fn & kw & Hn & E)]|[_ E]];
      rewrite E in Hin.
    + rewrite write_then_metadata in Hin.
      destruct (pandas_write fn data (location a) kw w) as [e|w']; simpl in Hin.
      * apply list_elem_of_singleton in Hin as ->. exact Hn.
      * destruct (get_file_metadata (location a) w'); simpl in Hin;
          apply elem_of_cons in Hin as [->|Hin]; try exact Hn;
          by apply list_elem_of_singleton in Hin as ->.
    + by apply elem_of_nil in Hin.
  - destruct (load_data_run a type_ w)
      as [[_ (fn & kw & Hn & [E|(self & -> & _ & E)])]|[_ E]];
      rewrite E in Hin.
    + rewrite read_then_metadata in Hin.
      destruct (pandas_read fn (location a) kw w) as [e|[df w']]; simpl in Hin.
      * apply list_elem_of_singleton in Hin as ->. exact Hn.
      * destruct (get_file_metadata (location a) w'); simpl in Hin;
          apply elem_of_cons in Hin as [->|Hin]; try exact Hn;
          by apply list_elem_of_singleton in Hin as ->.
    + destruct (pandas_read fn _ kw w) as [e|[df w']]; simpl in Hin;
        apply list_elem_of_singleton in Hin as ->; exact Hn.
    + by apply elem_of_nil in Hin.
Qed.
End Touches.

Lemma methods_match_capabilities_witness :
  let C := InMemory.collaborators InMemory.python_3_11 in
  let a := PickleReader (PandasPickleReader.new (SrcStr "frame.pkl")) in
  issubclass (class_of a) DataSaver = false ∧
  run (save_data a InMemory.frame) (∅ : InMemory.files)
    = Raises (AttributeError "save_data") (mkState ∅ []).
Proof.
  intros C a.
  assert (H : issubclass (class_of a) DataSaver = false) by reflexivity.
  exact (conj H
    (proj1 (proj2 (proj2
       (methods_match_capabilities a PandasDataFrame InMemory.frame ∅))) H)).
Defined.

Lemma csv_load_over_https_skips_extractor_witness :
  let C := InMemory.collaborators InMemory.python_3_11 in
  let self := CSVDataAdapter.new "https://example.org/frame.csv" in
  let loc := SrcStr (CSVDataAdapter.path self) in
  let w : InMemory.files := {["https://example.org/frame.csv" := InMemory.frame]} in
  CSVDataAdapter.path self = "https://" +:+ "example.org/frame.csv" ∧
  GetFileMetadata loc
    ∉ calls (final_state (run (load_data (CSV self) PandasDataFrame) w)).
Proof.
  intros C self loc w.
  assert (H : CSVDataAdapter.path self = "https://" +:+ "example.org/frame.csv")
    by reflexivity.
  exact (conj H
    (proj1 (proj2
       (csv_load_over_https_skips_extractor self "example.org/frame.csv"
          PandasDataFrame InMemory.frame w H)))).
Defined.

Lemma pandas_routine_matches_format_name_witness :
  let C := InMemory.collaborators InMemory.python_3_11 in
  let a := Feather (FeatherDataLoader.new "frame.feather") in
  let ev := PandasWrite to_feather InMemory.frame (SrcStr "frame.feather") ∅ in
  ev ∈ (calls (final_state (run (save_data a InMemory.frame) (∅ : InMemory.files)))
        ++ calls (final_state (run (load_data a PandasDataFrame) ∅)))%list ∧
  pd_writer_name to_feather = "to_" +:+ name (class_of a).
Proof.
  intros C a ev.
  assert (H : ev ∈ (calls (final_state
                      (run (save_data a InMemory.frame) (∅ : InMemory.files)))
                    ++ calls (final_state (run (load_data a PandasDataFrame) ∅)))%list)
    by (vm_compute; in_fields).
  exact (conj H
    (pandas_routine_matches_format_name a PandasDataFrame InMemory.frame ∅ ev H)).
Defined.

(** ** Registration, call after call *)

(** X12. [register_data_loaders] has no guard of its own: each call keeps
    everything registered so far and registers every one of the seven
    classes once more, so calling it again doubles the registrations. *)
Theorem register_data_loaders_accumulates (log : registry_log) :
  (∃ added, register_data_loaders log = (log ++ added)%list ∧
            length added = 7%nat) ∧
  (∀ cls,
     length (filter (λ c, c = cls) (registered_adapters (register_data_loaders log)))
     = S (length (filter (λ c, c = cls) (registered_adapters log)))) ∧
  registered_types (register_data_loaders log) = registered_types log.
Proof.
  assert (E : register_data_loaders log =
    (log ++ [RegisterAdapter CSVDataAdapter_cls; RegisterAdapter FeatherDataLoader_cls;
             RegisterAdapter ParquetDataLoader_cls;
             RegisterAdapter PandasPickleReader_cls;
             RegisterAdapter PandasPickleWriter_cls;
             RegisterAdapter PandasJsonReader_cls;
             RegisterAdapter PandasJsonWriter_cls])%list).
  { unfold register_data_loaders, registry_register_adapter; simpl.
    by rewrite <- !app_assoc. }
  split; [rewrite E; by eexists|]. rewrite E.
  unfold registered_adapters, registered_types. rewrite !omap_app. simpl. split.
  - intros cls. rewrite filter_app, length_app.
    destruct cls; simpl; lia.
  - by rewrite app_nil_r.
Qed.

(** X13. Every format the module registers can go both ways: for each
    registered class and each direction there is a registered class of the
    same format name, applicable to the same types, with that capability. *)
Theorem every_registered_format_loads_and_saves (log' : registry_log)
    (cls : adapter_class) (b : base_class) :
  import_module true [] = inr log' →
  cls ∈ registered_adapters log' →
  ∃ cls', cls' ∈ registered_adapters log' ∧
          name cls' = name cls ∧
          applicable_types cls' = applicable_types cls ∧
          issubclass cls' b = true.
Proof.
  intros [= <-] _.
  assert (Hall : ∀ c, c ∈ registered_adapters
            (register_data_loaders (register_types
               [GetColumnRegister PandasDataFrame;
                FillWithScalarRegister PandasDataFrame])))
    by (intros []; vm_compute; in_fields).
  destruct cls, b;
    first [ exists CSVDataAdapter_cls; by repeat split
          | exists FeatherDataLoader_cls; by repeat split
          | exists ParquetDataLoader_cls; by repeat split
          | exists PandasPickleReader_cls; by repeat split
          | exists PandasPickleWriter_cls; by repeat split
          | exists PandasJsonReader_cls; by repeat split
          | exists PandasJsonWriter_cls; by repeat split ].
Qed.

Lemma every_registered_format_loads_and_saves_witness :
  ∃ log', import_module true [] = inr log' ∧
    PandasPickleWriter_cls ∈ registered_adapters log' ∧
    ∃ cls', cls' ∈ registered_adapters log' ∧
            name cls' = name PandasPickleWriter_cls ∧
            applicable_types cls' = applicable_types PandasPickleWriter_cls ∧
            issubclass cls' DataLoader = true.
Proof.
  eexists. split; [reflexivity|].
  assert (H : PandasPickleWriter_cls ∈ registered_adapters
            (register_data_loaders (register_types
               [GetColumnRegister PandasDataFrame;
                FillWithScalarRegister PandasDataFrame])))
    by (vm_compute; in_fields).
  exact (conj H
    (every_registered_format_loads_and_saves _ PandasPickleWriter_cls DataLoader
       eq_refl H)).
Defined.

(** ** Loading after saving *)

Section SaveThenLoad.
Context {World : Type} `{!Collaborators World}.

(** A load started after other calls behaves as one started afresh; the
    earlier calls just stay in front of the log. *)
Lemma load_data_after_calls (b : adapter) type_ (w : World) (earlier : list event) :
  load_data b type_ (mkState w earlier) = after_calls earlier (run (load_data b type_) w).
Proof.
  destruct b as [self|self|self|self|self|self|self]; simpl;
    unfold CSVDataAdapter.load_data, FeatherDataLoader.load_data,
      ParquetDataLoader.load_data, PandasPickleReader.load_data,
      PandasJsonReader.load_data, run, raise, mbind, M_bind, mret, M_ret,
      pd_read, utils_get_file_metadata, record; simpl;
    try (by rewrite app_nil_r);
    match goal with |- context [pandas_read ?f ?l ?k w] =>
      destruct (pandas_read f l k w) as [e|[df w']] end; simpl; try done.
  1: destruct (startswith "https://" (CSVDataAdapter.path self)); simpl; [done|].
  all: try match goal with |- context [get_file_metadata ?l ?w0] =>
         destruct (get_file_metadata l w0) end; simpl;
       by rewrite <- ?app_assoc.
Qed.

(** X14. Loading right after a successful save, through adapters configured
    with the same location, reads that location in exactly the world the
    write left behind: the first three calls are the write, the extractor
    and the read, and the extractor in between changes nothing. *)
Theorem load_after_save_reads_what_was_written (a b : adapter) (data : DataFrame)
    (type_ : pytype) (w : World) (df : DataFrame) (md : Metadata)
    (s : state World) :
  location b = location a →
  run (save_data a data ;; load_data b type_) w = Returns (df, md) s →
  ∃ fw kw fr kr w1,
    pandas_write fw data (location a) kw w = inr w1 ∧
    pandas_read fr (location a) kr w1 = inr (df, world s) ∧
    take 3 (calls s) = [PandasWrite fw data (location a) kw;
                        GetFileMetadata (location a);
                        PandasRead fr (location a) kr].
Proof.
  intros Hloc. unfold run at 1, mbind, M_bind.
  destruct (save_data a data (mkState w [])) as [md1 s1|e s1] eqn:Es; [|done].
  apply save_data_returns in Es as (fw & kw & Hc & Hw & _).
  destruct s1 as [w1 c1]; simpl in *. subst c1.
  rewrite load_data_after_calls.
  destruct (run (load_data b type_) w1) as [[df' md'] s'|e s'] eqn:El; [|done].
  simpl. intros [= <- <- <-]; simpl.
  apply load_data_returns in El as (fr & kr & Hr & Hcalls).
  rewrite Hloc in Hr, Hcalls.
  exists fw, kw, fr, kr, w1. split; [done|]. split; [done|].
  destruct Hcalls as [[-> _]|(self & _ & _ & -> & _)]; done.
Qed.
End SaveThenLoad.

Lemma load_after_save_reads_what_was_written_witness :
  let C := InMemory.collaborators InMemory.python_3_11 in
  let a := PickleWriter (PandasPickleWriter.new (SrcStr "frame.pkl")) in
  let b := PickleReader (PandasPickleReader.new (SrcStr "frame.pkl")) in
  ∃ md s,
    location b = location a ∧
    run (save_data a InMemory.frame ;; load_data b PandasDataFrame)
        (∅ : InMemory.files) = Returns (InMemory.frame, md) s ∧
    ∃ fw kw fr kr w1,
      pandas_write fw InMemory.frame (location a) kw ∅ = inr w1 ∧
      pandas_read fr (location a) kr w1 = inr (InMemory.frame, world s) ∧
      take 3 (calls s) = [PandasWrite fw InMemory.frame (location a) kw;
                          GetFileMetadata (location a);
                          PandasRead fr (location a) kr].
Proof.
  intros C a b. eexists _, _.
  split; [reflexivity|].
  assert (H : location b = location a) by reflexivity.
  split; [reflexivity|].
  eapply (load_after_save_reads_what_was_written a b InMemory.frame PandasDataFrame
            ∅ InMemory.frame _ _ H).
  reflexivity.
Defined.

(** ** Reading back a filled column *)

(** X15. On a frame whose column labels are distinct, after
    [fill_with_scalar_pandas(df, column_name, value)] with a scalar [value],
    [get_column_pandas] through the same reference returns a column holding
    [value] once per row; every other column reads as before, and so does
    every column of every other frame. *)
Theorem get_column_after_fill `{!FrameAssignment} (h : heap) (df : ref)
    (d : DataFrame) (column_name : string) (value : pyval) :
  h !! df = Some d →
  is_scalar value = true →
  NoDup (df_columns d).*1 →
  ∃ h',
    fill_with_scalar_pandas df column_name value h = Some (Returns df h') ∧
    get_column_pandas df column_name h'
      = Some (inr (Column (replicate (length (df_index d)) value))) ∧
    (∀ c, c ≠ column_name → get_column_pandas df c h' = get_column_pandas df c h) ∧
    (∀ other c, other ≠ df →
       get_column_pandas other c h' = get_column_pandas other c h).
Proof.
  intros Hd Hv Hnd. eexists. split.
  { unfold fill_with_scalar_pandas, setitem. rewrite Hd; simpl. by rewrite Hv. }
  unfold get_column_pandas.
  destruct (set_column_spec column_name (replicate (length (df_index d)) value) d)
    as (_ & _ & _ & _ & Hothers).
  split; [|split].
  - rewrite lookup_insert_eq; simpl. by rewrite set_column_getitem.
  - intros c Hc. rewrite lookup_insert_eq, Hd; simpl. by rewrite Hothers.
  - intros other c Hne. by rewrite lookup_insert_ne.
Qed.

Lemma get_column_after_fill_witness :
  let A := InMemory.frame_assignment in
  let h : heap := {[ 1%positive := InMemory.frame ]} in
  h !! 1%positive = Some InMemory.frame ∧
  is_scalar (VInt 0) = true ∧
  NoDup (df_columns InMemory.frame).*1 ∧
  get_column_pandas 1%positive "total" h = Some (inl (KeyError "total")) ∧
  ∃ h',
    fill_with_scalar_pandas 1%positive "total" (VInt 0) h
      = Some (Returns 1%positive h') ∧
    get_column_pandas 1%positive "total" h'
      = Some (inr (Column (replicate (length (df_index InMemory.frame)) (VInt 0)))) ∧
    (∀ c, c ≠ "total" →
       get_column_pandas 1%positive c h' = get_column_pandas 1%positive c h) ∧
    (∀ other c, other ≠ 1%positive →
       get_column_pandas other c h' = get_column_pandas other c h).
Proof.
  intros A h.
  assert (H : h !! 1%positive = Some InMemory.frame) by reflexivity.
  assert (Hnd : NoDup (df_columns InMemory.frame).*1)
    by (apply (bool_decide_unpack _); reflexivity).
  exact (conj H (conj eq_refl (conj Hnd (conj eq_refl
    (get_column_after_fill h 1%positive InMemory.frame "total" (VInt 0)
       H eq_refl Hnd))))).
Defined.

(** X16. Filling the same column again with scalars overwrites: the last
    value wins and the heap ends up as if only the last fill had happened.
    In particular filling twice with the same value changes nothing
    further, and the row index of every frame is preserved. *)
Theorem fill_with_scalar_pandas_last_write_wins `{!FrameAssignment} (h : heap)
    (df : ref) (d : DataFrame) (column_name : string) (v v' : pyval) :
  h !! df = Some d →
  is_scalar v = true →
  is_scalar v' = true →
  ∃ h1 h2,
    fill_with_scalar_pandas df column_name v h = Some (Returns df h1) ∧
    fill_with_scalar_pandas df column_name v' h1 = Some (Returns df h2) ∧
    fill_with_scalar_pandas df column_name v' h = Some (Returns df h2) ∧
    fill_with_scalar_pandas df column_name v h1 = Some (Returns df h1) ∧
    (df_index <$> h1) = (df_index <$> h).
Proof.
  intros Hd Hv Hv'.
  assert (Hfill : ∀ u (g : heap) e, is_scalar u = true → g !! df = Some e →
            fill_with_scalar_pandas df column_name u g
            = Some (Returns df
                (<[df := set_column column_name
                           (replicate (length (df_index e)) u) e]> g))).
  { intros u g e Hu Hg. unfold fill_with_scalar_pandas, setitem.
    rewrite Hg; simpl. by rewrite Hu. }
  assert (Hidx : ∀ cells, df_index (set_column column_name cells d) = df_index d)
    by (intros cells; apply set_column_spec).
  eexists _, _. split; [by apply Hfill|]. split; [|split; [|split]].
  - rewrite (Hfill v' _ _ Hv' (lookup_insert_eq _ _ _)).
    rewrite insert_insert_eq, set_column_set_column, Hidx. reflexivity.
  - by apply Hfill.
  - rewrite (Hfill v _ _ Hv (lookup_insert_eq _ _ _)).
    by rewrite insert_insert_eq, set_column_set_column, Hidx.
  - rewrite fmap_insert, Hidx. apply insert_id. by rewrite lookup_fmap, Hd.
Qed.

Lemma fill_with_scalar_pandas_last_write_wins_witness :
  let A := InMemory.frame_assignment in
  let h : heap := {[ 1%positive := InMemory.frame ]} in
  h !! 1%positive = Some InMemory.frame ∧
  is_scalar (VInt 0) = true ∧
  is_scalar (VStr "n/a") = true ∧
  ∃ h1 h2,
    fill_with_scalar_pandas 1%positive "a" (VInt 0) h
      = Some (Returns 1%positive h1) ∧
    fill_with_scalar_pandas 1%positive "a" (VStr "n/a") h1
      = Some (Returns 1%positive h2) ∧
    fill_with_scalar_pandas 1%positive "a" (VStr "n/a") h
      = Some (Returns 1%positive h2) ∧
    fill_with_scalar_pandas 1%positive "a" (VInt 0) h1
      = Some (Returns 1%positive h1) ∧
    (df_index <$> h1) = (df_index <$> h).
Proof.
  intros A h.
  assert (H : h !! 1%positive = Some InMemory.frame) by reflexivity.
  exact (conj H (conj eq_refl (conj eq_refl
    (fill_with_scalar_pandas_last_write_wins h 1%positive InMemory.frame "a"
       (VInt 0) (VStr "n/a") H eq_refl eq_refl)))).
Defined.

(** ** What a default-configured adapter passes *)

(** X17. On Python 3.8 or later, an adapter built from a location alone
    passes to pandas exactly the keywords whose declared default is not
    [None] (and, for the JSON writer, not the [False] of [lines]); the pickle
    writer's [protocol] carries [pickle_protocol_default]. *)
Theorem default_kwargs {World : Type} `{!Collaborators World} (loc : file_source) :
  tuple_ge (as_tuple version_info) [3; 8] = true →
  PandasPickleReader._get_loading_kwargs (PandasPickleReader.new loc)
    = {["compression" := VStr "infer"]} ∧
  PandasPickleWriter._get_saving_kwargs (PandasPickleWriter.new loc)
    = <["protocol" := VInt (pickle_protocol_default version_info)]>
        {["compression" := VStr "infer"]} ∧
  PandasJsonReader._get_loading_kwargs (PandasJsonReader.new loc)
    = <["typ" := VStr "frame"]> (<["precise_float" := VBool false]>
        (<["lines" := VBool false]> (<["keep_default_dates" := VBool true]>
        (<["engine" := VStr "ujson"]> (<["encoding_errors" := VStr "strict"]>
        (<["convert_dates" := VBool true]> {["compression" := VStr "infer"]})))))) ∧
  PandasJsonWriter._get_saving_kwargs (PandasJsonWriter.new loc)
    = <["mode" := VStr "w"]> (<["indent" := VInt 0]>
        (<["force_ascii" := VBool true]> (<["double_precision" := VInt 10]>
        (<["date_unit" := VStr "ms"]> (<["date_format" := VStr "epoch"]>
        {["compression" := VStr "infer"]}))))).
Proof.
  intros Hge.
  unfold PandasJsonReader._get_loading_kwargs, PandasJsonWriter._get_saving_kwargs.
  cbv zeta. simpl PandasJsonReader.engine. simpl PandasJsonWriter.mode.
  rewrite Hge. repeat split.
Qed.

Lemma default_kwargs_witness :
  let C := InMemory.collaborators InMemory.python_3_11 in
  tuple_ge (as_tuple version_info) [3; 8] = true ∧
  PandasPickleWriter._get_saving_kwargs (PandasPickleWriter.new (SrcStr "frame.pkl"))
    = <["protocol" := VInt 5]> {["compression" := VStr "infer"]}.
Proof.
  intros C.
  assert (H : tuple_ge (as_tuple version_info) [3; 8] = true) by reflexivity.
  exact (conj H (proj1 (proj2 (default_kwargs (SrcStr "frame.pkl") H)))).
Defined.
